(** * GitExtractor: a shallow embedding of [git_scanner.py]

    The development follows the Python source top-down:

    - [Py]       the [str] methods and the two regular expressions the
                 script uses ([strip], [startswith], [split], [replace],
                 slicing, [ref_pattern.match], [pack_pattern.findall]);
    - [PosixPath] [os.path.join], [os.path.split], [os.path.dirname];
    - [Url]      [urllib.parse.urljoin];
    - [OS]       a directory tree with [exists], [isdir], [mkdir],
                 [makedirs], reading and writing of files;
    - the class [GitExtractor] itself, written in a state-and-exception
      monad over the directory tree and the list of HTTP requests sent.

    Text is modelled by [string]: a character is a code point below
    256, and a byte of a response body is the character with its
    value, so that a file read in text mode gives the bytes written to
    it, up to the translation of line ends.  The pattern [idx_pattern]
    of the constructor is used nowhere in the script and has no
    counterpart here; [print] has no effect on the state and is left
    out. *)

From Stdlib Require Import Ascii String List ZArith Lia Bool.
From stdpp Require Import base option list gmap strings.

Local Open Scope string_scope.
Local Open Scope list_scope.

(** ** Python [str] methods *)

Module Py.

(** [str.isspace] on one character (code points below 256). *)
Definition isspace (c : ascii) : bool :=
  let n := N_of_ascii c in
  ((9 <=? n) && (n <=? 13) || (28 <=? n) && (n <=? 32)
   || (n =? 133) || (n =? 160))%N.

Fixpoint lstrip_by (p : ascii -> bool) (s : string) : string :=
  match s with
  | EmptyString => EmptyString
  | String c s' => if p c then lstrip_by p s' else s
  end.

Fixpoint rstrip_by (p : ascii -> bool) (s : string) : string :=
  match s with
  | EmptyString => EmptyString
  | String c s' =>
      match rstrip_by p s' with
      | EmptyString => if p c then EmptyString else String c EmptyString
      | r => String c r
      end
  end.

(** [s.strip()] *)
Definition strip (s : string) : string := rstrip_by isspace (lstrip_by isspace s).

(** [s.rstrip(c)] for a one-character argument. *)
Definition rstrip_char (c : ascii) (s : string) : string :=
  rstrip_by (Ascii.eqb c) s.

(** [s.startswith(pre)] *)
Definition startswith (s pre : string) : bool := String.prefix pre s.

Fixpoint endswith_char (s : string) (c : ascii) : bool :=
  match s with
  | EmptyString => false
  | String d EmptyString => Ascii.eqb d c
  | String _ s' => endswith_char s' c
  end.

(** [s[:n]] and [s[n:]] for a literal [n >= 0]. *)
Fixpoint take (n : nat) (s : string) : string :=
  match n, s with
  | S k, String c s' => String c (take k s')
  | _, _ => EmptyString
  end.

Fixpoint drop (n : nat) (s : string) : string :=
  match n, s with
  | S k, String _ s' => drop k s'
  | _, _ => s
  end.

Fixpoint all_chars (p : ascii -> bool) (s : string) : bool :=
  match s with
  | EmptyString => true
  | String c s' => p c && all_chars p s'
  end.

(** [s.split(sep)] for a non-empty [sep]: the pieces between the
    non-overlapping occurrences of [sep], found left to right.  [skip]
    counts the characters of an occurrence still to be passed over. *)
Fixpoint split_go (sep : string) (skip : nat) (s : string) : list string :=
  match s with
  | EmptyString => [EmptyString]
  | String c s' =>
      match skip with
      | S k => split_go sep k s'
      | O =>
          if String.prefix sep s
          then EmptyString :: split_go sep (String.length sep - 1) s'
          else match split_go sep 0 s' with
               | piece :: pieces => String c piece :: pieces
               | [] => [String c EmptyString]
               end
      end
  end.

Definition split (s sep : string) : list string := split_go sep 0 s.


(** [s.replace(old, new)] for a non-empty [old]: every non-overlapping
    occurrence, left to right. *)
Fixpoint replace_go (old new : string) (skip : nat) (s : string) : string :=
  match s with
  | EmptyString => EmptyString
  | String c s' =>
      match skip with
      | S k => replace_go old new k s'
      | O =>
          if String.prefix old s
          then new +:+ replace_go old new (String.length old - 1) s'
          else String c (replace_go old new 0 s')
      end
  end.

Definition replace (s old new : string) : string := replace_go old new 0 s.

(** The character class [[0-9a-f]]. *)
Definition is_hex (c : ascii) : bool :=
  let n := N_of_ascii c in
  ((48 <=? n) && (n <=? 57) || (97 <=? n) && (n <=? 102))%N.

Definition newline : ascii := "010"%char.

(** [re.compile(r'^[0-9a-f]{40}$').match(s)] as a truth value.  In Python
    [$] matches at the end of the string and also just before a newline
    that ends the string. *)
Definition ref_pattern_match (s : string) : bool :=
  (String.length (take 40 s) =? 40)%nat && all_chars is_hex (take 40 s)
  && (String.eqb (drop 40 s) EmptyString
      || String.eqb (drop 40 s) (String newline EmptyString)).

(** [.*\.pack] matched at the start of [s], with the backtracking order
    of [re]: the greedy [.*] first takes one more character (anything
    but a newline), and only when the rest cannot match that way is
    [\.pack] tried at the current position. *)
Fixpoint dot_star_pack (s : string) : option string :=
  match s with
  | EmptyString => None
  | String c s' =>
      match (if Ascii.eqb c newline then None else dot_star_pack s') with
      | Some m => Some (String c m)
      | None => if String.prefix ".pack" s then Some ".pack" else None
      end
  end.

(** [.+\.pack] matched at the start of [s]. *)
Definition dot_plus_pack (s : string) : option string :=
  match s with
  | EmptyString => None
  | String c s' =>
      if Ascii.eqb c newline then None
      else String c <$> dot_star_pack s'
  end.

(** [P ([0-9a-f]{40}) (.+\.pack)] matched at the start of [s]: the two
    groups. *)
Definition pack_pattern_match (s : string) : option (string * string) :=
  if String.prefix "P " s then
    let h := take 40 (drop 2 s) in
    if (String.length h =? 40)%nat && all_chars is_hex h
       && String.prefix " " (drop 42 s)
    then (fun f => (h, f)) <$> dot_plus_pack (drop 43 s)
    else None
  else None.

(** [pack_pattern.findall(s)]: the groups of the non-overlapping matches,
    scanning from the left; after a match the scan resumes at its end. *)
Fixpoint findall_go (skip : nat) (s : string) : list (string * string) :=
  match s with
  | EmptyString => []
  | String _ s' =>
      match skip with
      | S k => findall_go k s'
      | O =>
          match pack_pattern_match s with
          | Some (h, f) => (h, f) :: findall_go (42 + String.length f) s'
          | None => findall_go 0 s'
          end
      end
  end.

Definition pack_pattern_findall (s : string) : list (string * string) :=
  findall_go 0 s.

End Py.

(** ** Exceptions and results *)

(** The exception classes that the modelled code can meet.  All but
    [IndexError], [ValueError] and [RecursionError] are subclasses of
    [OSError]; [ConnectionError] stands for whatever [requests] raises. *)
Inductive exn : Type :=
  | IndexError
  | ValueError
  | RecursionError
  | FileNotFoundError
  | FileExistsError
  | IsADirectoryError
  | NotADirectoryError
  | ConnectionError.

Inductive result (A : Type) : Type :=
  | Ok (a : A)
  | Raise (e : exn).
Arguments Ok {A} a.
Arguments Raise {A} e.

Definition is_FileExistsError (e : exn) : bool :=
  match e with FileExistsError => true | _ => false end.

(** ** [posixpath] *)

Module PosixPath.

(** [os.path.join(a, b)] *)
Definition join (a b : string) : string :=
  if Py.startswith b "/" then b
  else if String.eqb a "" || Py.endswith_char a "/" then a +:+ b
  else a +:+ "/" +:+ b.

(** [os.path.join(a, b, c)]: the same rule, applied from the left. *)
Definition join3 (a b c : string) : string := join (join a b) c.

(** [p[:i], p[i:]] for [i = p.rfind('/') + 1]. *)
Fixpoint cut (p : string) : string * string :=
  match p with
  | EmptyString => (EmptyString, EmptyString)
  | String c p' =>
      match cut p' with
      | (EmptyString, t) =>
          if Ascii.eqb c "/" then ("/", t) else (EmptyString, String c t)
      | (h, t) => (String c h, t)
      end
  end.

(** [os.path.split(p)]: the head loses its trailing slashes unless it
    consists of slashes only. *)
Definition split (p : string) : string * string :=
  let (head, tail) := cut p in
  (if Py.all_chars (Ascii.eqb "/") head then head else Py.rstrip_char "/" head,
   tail).

(** [os.path.dirname(p)] *)
Definition dirname (p : string) : string := fst (split p).

End PosixPath.

(** ** [urllib.parse.urljoin]

    After CPython's [urllib/parse.py].  The checks that [urlsplit] runs
    on a bracketed (IPv6) or non-ASCII host are outside this model: a
    host with a bracket is answered with [ValueError], which is what the
    library does when the brackets do not enclose a valid address. *)

Module Url.

Record parsed : Type := Parsed {
  scheme : string;
  netloc : string;
  path : string;
  params : string;
  query : string;
  fragment : string
}.

Definition uses_relative : list string :=
  [""; "ftp"; "http"; "gopher"; "nntp"; "imap"; "wais"; "file"; "https";
   "shttp"; "mms"; "prospero"; "rtsp"; "rtsps"; "rtspu"; "sftp"; "svn";
   "svn+ssh"; "ws"; "wss"].

Definition uses_netloc : list string :=
  [""; "ftp"; "http"; "gopher"; "nntp"; "telnet"; "imap"; "wais"; "file";
   "mms"; "https"; "shttp"; "snews"; "prospero"; "rtsp"; "rtsps"; "rtspu";
   "rsync"; "svn"; "svn+ssh"; "sftp"; "nfs"; "git"; "git+ssh"; "ws"; "wss";
   "itms-services"].

Definition uses_params : list string :=
  [""; "ftp"; "hdl"; "prospero"; "http"; "imap"; "https"; "shttp"; "rtsp";
   "rtsps"; "rtspu"; "sip"; "sips"; "mms"; "sftp"; "tel"].

Definition mem (s : string) (l : list string) : bool :=
  existsb (String.eqb s) l.

Definition is_upper (c : ascii) : bool :=
  let n := N_of_ascii c in ((65 <=? n) && (n <=? 90))%N.
Definition is_lower (c : ascii) : bool :=
  let n := N_of_ascii c in ((97 <=? n) && (n <=? 122))%N.
Definition is_digit (c : ascii) : bool :=
  let n := N_of_ascii c in ((48 <=? n) && (n <=? 57))%N.
Definition is_alpha (c : ascii) : bool := is_upper c || is_lower c.

Definition scheme_char (c : ascii) : bool :=
  is_alpha c || is_digit c
  || Ascii.eqb c "+" || Ascii.eqb c "-" || Ascii.eqb c ".".

Definition lower_char (c : ascii) : ascii :=
  if is_upper c then ascii_of_N (N_of_ascii c + 32) else c.

Fixpoint lower (s : string) : string :=
  match s with
  | EmptyString => EmptyString
  | String c s' => String (lower_char c) (lower s')
  end.

Fixpoint contains (c : ascii) (s : string) : bool :=
  match s with
  | EmptyString => false
  | String d s' => Ascii.eqb d c || contains c s'
  end.

(** [s.split(c, 1)] when [c] occurs in [s]. *)
Fixpoint partition (c : ascii) (s : string) : option (string * string) :=
  match s with
  | EmptyString => None
  | String d s' =>
      if Ascii.eqb d c then Some (EmptyString, s')
      else (fun '(a, b) => (String d a, b)) <$> partition c s'
  end.

Fixpoint remove_chars (p : ascii -> bool) (s : string) : string :=
  match s with
  | EmptyString => EmptyString
  | String c s' => if p c then remove_chars p s' else String c (remove_chars p s')
  end.

(** [_WHATWG_C0_CONTROL_OR_SPACE] and [_UNSAFE_URL_BYTES_TO_REMOVE]. *)
Definition c0_or_space (c : ascii) : bool := (N_of_ascii c <=? 32)%N.
Definition unsafe_byte (c : ascii) : bool :=
  Ascii.eqb c "009" || Ascii.eqb c "010" || Ascii.eqb c "013".

(** [_splitnetloc(url, 2)] on the text after the two slashes. *)
Fixpoint splitnetloc (s : string) : string * string :=
  match s with
  | EmptyString => (EmptyString, EmptyString)
  | String c s' =>
      if Ascii.eqb c "/" || Ascii.eqb c "?" || Ascii.eqb c "#"
      then (EmptyString, s)
      else let (d, r) := splitnetloc s' in (String c d, r)
  end.

Definition split_scheme (url default : string) : string * string :=
  match partition ":" url with
  | Some (String c pre, rest) =>
      if is_alpha c && Py.all_chars scheme_char (String c pre)
      then (lower (String c pre), rest)
      else (default, url)
  | _ => (default, url)
  end.

(** [urlsplit(url, scheme)] followed by the parameter split of
    [urlparse]. *)
Definition urlparse (url0 default : string) : result parsed :=
  let url := remove_chars unsafe_byte (Py.lstrip_by c0_or_space url0) in
  let (sch, url) := split_scheme url default in
  let (loc, url) :=
    if String.prefix "//" url then splitnetloc (Py.drop 2 url)
    else (EmptyString, url) in
  if contains "[" loc || contains "]" loc then Raise ValueError
  else
    let (url, frag) :=
      match partition "#" url with Some p => p | None => (url, EmptyString) end in
    let (url, qry) :=
      match partition "?" url with Some p => p | None => (url, EmptyString) end in
    let (url, prm) :=
      if mem sch uses_params then
        let (h, t) := PosixPath.cut url in
        match partition ";" t with
        | Some (t1, p) => (h +:+ t1, p)
        | None => (url, EmptyString)
        end
      else (url, EmptyString) in
    Ok (Parsed sch loc url prm qry frag).

Definition nonempty (s : string) : bool := negb (String.eqb s "").

(** [urlunparse] *)
Definition urlunparse (u : parsed) : string :=
  let url := if nonempty (params u) then path u +:+ ";" +:+ params u else path u in
  let url :=
    if nonempty (netloc u)
       || (nonempty (scheme u) && mem (scheme u) uses_netloc
           && negb (String.prefix "//" url))
    then "//" +:+ netloc u
         +:+ (if nonempty url && negb (String.prefix "/" url)
              then "/" +:+ url else url)
    else url in
  let url := if nonempty (scheme u) then scheme u +:+ ":" +:+ url else url in
  let url := if nonempty (query u) then url +:+ "?" +:+ query u else url in
  if nonempty (fragment u) then url +:+ "#" +:+ fragment u else url.

(** [segments[1:-1] = filter(None, segments[1:-1])] *)
Definition drop_empty_inner (segs : list string) : list string :=
  match segs with
  | first :: (_ :: _) as rest =>
      first :: List.filter nonempty (removelast rest) ++ [List.last rest ""]
  | _ => segs
  end.

(** The loop over the segments, [resolved_path] growing at its end. *)
Fixpoint resolve_dots (resolved segs : list string) : list string :=
  match segs with
  | [] => resolved
  | seg :: segs' =>
      if String.eqb seg ".." then resolve_dots (removelast resolved) segs'
      else if String.eqb seg "." then resolve_dots resolved segs'
      else resolve_dots (resolved ++ [seg]) segs'
  end.

Fixpoint slash_join (l : list string) : string :=
  match l with
  | [] => EmptyString
  | [x] => x
  | x :: l' => x +:+ "/" +:+ slash_join l'
  end.

Definition urljoin (base url : string) : result string :=
  if String.eqb base "" then Ok url
  else if String.eqb url "" then Ok base
  else
    match urlparse base "" with
    | Raise e => Raise e
    | Ok b =>
        match urlparse url (scheme b) with
        | Raise e => Raise e
        | Ok u =>
            if negb (String.eqb (scheme u) (scheme b))
               || negb (mem (scheme u) uses_relative)
            then Ok url
            else if mem (scheme u) uses_netloc && nonempty (netloc u)
            then Ok (urlunparse u)
            else
              let loc := if mem (scheme u) uses_netloc then netloc b else netloc u in
              if negb (nonempty (path u)) && negb (nonempty (params u))
              then Ok (urlunparse
                         (Parsed (scheme u) loc (path b) (params b)
                                 (if nonempty (query u) then query u else query b)
                                 (fragment u)))
              else
                let base_parts := Py.split (path b) "/" in
                let base_parts :=
                  if nonempty (List.last base_parts "")
                  then removelast base_parts else base_parts in
                let segments :=
                  if String.prefix "/" (path u) then Py.split (path u) "/"
                  else drop_empty_inner (base_parts ++ Py.split (path u) "/") in
                let resolved := resolve_dots [] segments in
                let resolved :=
                  if String.eqb (List.last segments "") "."
                     || String.eqb (List.last segments "") ".."
                  then resolved ++ [EmptyString] else resolved in
                let joined := slash_join resolved in
                Ok (urlunparse
                      (Parsed (scheme u) loc
                              (if nonempty joined then joined else "/")
                              (params u) (query u) (fragment u)))
        end
    end.

End Url.

(** ** The file system

    A tree of directories and regular files, keyed by the list of names
    that leads from the root to a node; the root is always a directory.
    There are no symbolic links, permissions or limits on name lengths,
    and no other process changes the tree. *)

Module OS.

Inductive node : Type :=
  | File (data : string)
  | Dir.

Record fs : Type := Fs {
  cwd : list string;
  nodes : gmap (list string) node
}.

Definition node_at (d : fs) (l : list string) : option node :=
  match l with
  | [] => Some Dir
  | _ => nodes d !! l
  end.

Definition components (p : string) : list string := Py.split p "/".

(** Where path resolution starts. *)
Definition start (d : fs) (p : string) : list string :=
  if Py.startswith p "/" then [] else cwd d.

(** One component of a path, looked up in the directory [cur]. *)
Definition enter (cur : list string) (c : string) : list string :=
  if String.eqb c "" || String.eqb c "." then cur
  else if String.eqb c ".." then removelast cur
  else cur ++ [c].

(** Path resolution: every component is looked up in a node that must
    be an existing directory.  The node reached last need not exist. *)
Fixpoint walk (d : fs) (cur : list string) (comps : list string)
  : result (list string) :=
  match comps with
  | [] => Ok cur
  | c :: comps' =>
      match node_at d cur with
      | Some Dir => walk d (enter cur c) comps'
      | Some (File _) => Raise NotADirectoryError
      | None => Raise FileNotFoundError
      end
  end.

Definition resolve (d : fs) (p : string) : result (list string) :=
  if String.eqb p "" then Raise FileNotFoundError
  else walk d (start d p) (components p).

(** [os.stat], reduced to the kind of node. *)
Definition stat (d : fs) (p : string) : result node :=
  match resolve d p with
  | Ok l =>
      match node_at d l with
      | Some n => Ok n
      | None => Raise FileNotFoundError
      end
  | Raise e => Raise e
  end.

(** [os.path.exists(p)] *)
Definition exists_ (d : fs) (p : string) : bool :=
  match stat d p with Ok _ => true | Raise _ => false end.

(** [os.path.isdir(p)] *)
Definition isdir (d : fs) (p : string) : bool :=
  match stat d p with Ok Dir => true | _ => false end.

(** The content of a regular file, as it was written. *)
Definition read_bytes (d : fs) (p : string) : result string :=
  match stat d p with
  | Ok (File s) => Ok s
  | Ok Dir => Raise IsADirectoryError
  | Raise e => Raise e
  end.

(** What reading in text mode does to line ends: a carriage return,
    with or without a line feed after it, is read as a line feed. *)
Fixpoint universal_newlines (s : string) : string :=
  match s with
  | EmptyString => EmptyString
  | String c s' =>
      if Ascii.eqb c "013" then
        String Py.newline
               match s' with
               | String c' s'' =>
                   if Ascii.eqb c' Py.newline then universal_newlines s''
                   else universal_newlines s'
               | EmptyString => EmptyString
               end
      else String c (universal_newlines s')
  end.

(** [with open(p, 'r') as f: f.read()] *)
Definition read_text (d : fs) (p : string) : result string :=
  match read_bytes d p with
  | Ok s => Ok (universal_newlines s)
  | Raise e => Raise e
  end.

Definition put (d : fs) (l : list string) (n : node) : fs :=
  Fs (cwd d) (<[l := n]> (nodes d)).

(** A new entry needs an existing parent directory. *)
Definition create (d : fs) (l : list string) (n : node) : result fs :=
  match node_at d (removelast l) with
  | Some Dir => Ok (put d l n)
  | Some (File _) => Raise NotADirectoryError
  | None => Raise FileNotFoundError
  end.

(** The components of a path without the empty ones that its trailing
    slashes give. *)
Fixpoint drop_trailing_empty (comps : list string) : list string :=
  match comps with
  | [] => []
  | c :: comps' =>
      match drop_trailing_empty comps' with
      | [] => if String.eqb c "" then [] else [c]
      | r => c :: r
      end
  end.

(** A component that names an entry, as opposed to [.], [..] and the
    empty component. *)
Definition is_name (c : string) : bool :=
  negb (String.eqb c "" || String.eqb c "." || String.eqb c "..").

(** A path that ends in a name followed by a slash. *)
Definition names_directory (p : string) : bool :=
  let core := drop_trailing_empty (components p) in
  (length core <? length (components p))%nat && is_name (List.last core "").

(** [with open(p, 'wb') as f: f.write(data)]: the file is created or
    replaced.  A name followed by a slash cannot be created as a file,
    whatever is there. *)
Definition write_bytes (d : fs) (p data : string) : result fs :=
  if names_directory p then
    match walk d (start d p) (drop_trailing_empty (components p)) with
    | Ok _ => Raise IsADirectoryError
    | Raise e => Raise e
    end
  else
    match resolve d p with
    | Ok l =>
        match node_at d l with
        | Some Dir => Raise IsADirectoryError
        | Some (File _) => Ok (put d l (File data))
        | None => create d l (File data)
        end
    | Raise e => Raise e
    end.

(** Trailing slashes do not count when a directory is made. *)

(** [os.mkdir(p)] *)
Definition mkdir (d : fs) (p : string) : result fs :=
  if String.eqb p "" then Raise FileNotFoundError
  else
    match walk d (start d p) (drop_trailing_empty (components p)) with
    | Ok l =>
        match node_at d l with
        | Some _ => Raise FileExistsError
        | None => create d l Dir
        end
    | Raise e => Raise e
    end.

(** [os.makedirs(name, exist_ok=exist_ok)], after [os.py].  The result
    carries the file system as the call leaves it, also when it raises:
    directories made before the failure stay.  The recursion is on the
    head of the path, which gets shorter; [fuel] bounds its depth. *)
Fixpoint makedirs_fuel (fuel : nat) (d : fs) (name : string) (exist_ok : bool)
  : result unit * fs :=
  match fuel with
  | O => (Raise RecursionError, d)
  | S fuel' =>
      let (head, tail) := PosixPath.split name in
      let (head, tail) :=
        if String.eqb tail "" then PosixPath.split head else (head, tail) in
      let final_mkdir (d1 : fs) : result unit * fs :=
        match mkdir d1 name with
        | Ok d2 => (Ok tt, d2)
        | Raise e =>
            if negb exist_ok || negb (isdir d1 name)
            then (Raise e, d1) else (Ok tt, d1)
        end in
      if negb (String.eqb head "") && negb (String.eqb tail "")
         && negb (exists_ d head)
      then
        match makedirs_fuel fuel' d head exist_ok with
        | (Raise e, d1) =>
            if is_FileExistsError e
            then (if String.eqb tail "." then (Ok tt, d1) else final_mkdir d1)
            else (Raise e, d1)
        | (Ok _, d1) =>
            if String.eqb tail "." then (Ok tt, d1) else final_mkdir d1
        end
      else final_mkdir d
  end.

Definition makedirs (d : fs) (name : string) (exist_ok : bool)
  : result unit * fs :=
  makedirs_fuel (S (String.length name)) d name exist_ok.

End OS.

(** ** HTTP and the state of a run *)

Inductive request : Type :=
  | HEAD (url : string)
  | GET (url : string).

Record response : Type := Response {
  status_code : Z;
  content : string
}.

(** What [requests.Session] gives the script: for the requests sent so
    far and a new one, the final response (redirects are followed
    inside the library) or a raised exception. *)
Definition transport : Type := list request -> request -> result response.

(** The state a run acts on: the file system and the requests sent. *)
Record world : Type := World {
  disk : OS.fs;
  sent : list request
}.

(** Computations that read and change the [world] and may raise; a
    raised exception leaves the effects made before it in place. *)
Definition M (A : Type) : Type := world -> result A * world.

Definition ret {A : Type} (a : A) : M A := fun w => (Ok a, w).

Definition raise {A : Type} (e : exn) : M A := fun w => (Raise e, w).

Definition bind {A B : Type} (m : M A) (k : A -> M B) : M B :=
  fun w =>
    match m w with
    | (Ok a, w') => k a w'
    | (Raise e, w') => (Raise e, w')
    end.

Notation "x <- m ;; k" := (bind m (fun x => k))
  (at level 100, m at next level, right associativity).
Notation "m ;;; k" := (bind m (fun _ => k))
  (at level 100, right associativity).

(** [try: m  except Exception as e: h e] *)
Definition try_except {A : Type} (m : M A) (h : exn -> M A) : M A :=
  fun w =>
    match m w with
    | (Ok a, w') => (Ok a, w')
    | (Raise e, w') => h e w'
    end.

(** [for x in l: body x] *)
Fixpoint for_each {A : Type} (l : list A) (body : A -> M unit) : M unit :=
  match l with
  | [] => ret tt
  | x :: l' => body x ;;; for_each l' body
  end.

Definition lift {A : Type} (r : result A) : M A := fun w => (r, w).

Definition os_path_exists (p : string) : M bool :=
  fun w => (Ok (OS.exists_ (disk w) p), w).

Definition os_makedirs (p : string) (exist_ok : bool) : M unit :=
  fun w =>
    let (r, d) := OS.makedirs (disk w) p exist_ok in (r, World d (sent w)).

Definition read_file (p : string) : M string :=
  fun w => (OS.read_text (disk w) p, w).

Definition write_file (p data : string) : M unit :=
  fun w =>
    match OS.write_bytes (disk w) p data with
    | Ok d => (Ok tt, World d (sent w))
    | Raise e => (Raise e, w)
    end.

(** A request is on record as sent whether it is answered or not. *)
Definition send (t : transport) (r : request) : M response :=
  fun w => (t (sent w) r, World (disk w) (sent w ++ [r])).

(** ** The class [GitExtractor] *)

(** The attributes of the object, with the two imported capabilities it
    calls: [urljoin] and the HTTP session. *)
Record GitExtractor : Type := {
  urljoin : string -> string -> result string;
  session : transport;
  url : string;
  output_dir : string;
  threads : Z;
  git_files : list string;
  git_dir : string
}.

Definition catalog : list string :=
  [".git/HEAD"; ".git/config"; ".git/description"; ".git/info/exclude";
   ".git/objects/info/packs"; ".git/refs/heads/master";
   ".git/refs/heads/main"; ".git/index"].

Definition __init__ (urljoin_ : string -> string -> result string)
  (session_ : transport) (url_ output_dir_ : string) (threads_ : Z)
  : M GitExtractor :=
  present <- os_path_exists output_dir_ ;;
  (if negb present then os_makedirs output_dir_ false else ret tt) ;;;
  let git_dir_ := PosixPath.join output_dir_ ".git" in
  present <- os_path_exists git_dir_ ;;
  (if negb present then os_makedirs git_dir_ false else ret tt) ;;;
  ret {| urljoin := urljoin_;
         session := session_;
         url := Py.rstrip_char "/" url_;
         output_dir := output_dir_;
         threads := threads_;
         git_files := catalog;
         git_dir := git_dir_ |}.

Definition download_file (self : GitExtractor) (path : string) : M bool :=
  file_url <- lift (urljoin self (url self) path) ;;
  let local_path := PosixPath.join (output_dir self) path in
  try_except
    (response <- send (session self) (GET file_url) ;;
     if (status_code response =? 200)%Z then
       os_makedirs (PosixPath.dirname local_path) true ;;;
       write_file local_path (content response) ;;;
       ret true
     else ret false)
    (fun _ => ret false).

Fixpoint check_git_exists_loop (self : GitExtractor) (files : list string)
  : M bool :=
  match files with
  | [] => ret false
  | git_file :: files' =>
      url_ <- lift (urljoin self (url self) git_file) ;;
      found <- try_except
                 (response <- send (session self) (HEAD url_) ;;
                  ret (status_code response =? 200)%Z)
                 (fun _ => ret false) ;;
      if found then ret true else check_git_exists_loop self files'
  end.

Definition check_git_exists (self : GitExtractor) : M bool :=
  check_git_exists_loop self (firstn 3 (git_files self)).

Definition download_git_files (self : GitExtractor) : M unit :=
  for_each (git_files self) (fun git_file => download_file self git_file ;;; ret tt).

(** [l[i]] *)
Definition index {A : Type} (l : list A) (i : nat) : M A :=
  match nth_error l i with
  | Some x => ret x
  | None => raise IndexError
  end.

Definition extract_hash_from_head (self : GitExtractor) : M (option string) :=
  let head_path := PosixPath.join (git_dir self) "HEAD" in
  present <- os_path_exists head_path ;;
  if negb present then ret None
  else
    raw <- read_file head_path ;;
    let content := Py.strip raw in
    if Py.startswith content "ref:" then
      ref_path <- index (Py.split content "ref: ") 1 ;;
      let local_ref_path :=
        PosixPath.join3 (output_dir self) ".git" ref_path in
      present <- os_path_exists local_ref_path ;;
      if present then
        raw <- read_file local_ref_path ;; ret (Some (Py.strip raw))
      else
        download_file self (PosixPath.join ".git" ref_path) ;;;
        present <- os_path_exists local_ref_path ;;
        if present then
          raw <- read_file local_ref_path ;; ret (Some (Py.strip raw))
        else ret None
    else if Py.ref_pattern_match content then ret (Some content)
    else ret None.

(** The truth value of an optional string: [None] and [''] are false. *)
Definition truthy (h : option string) : bool :=
  match h with
  | Some s => negb (String.eqb s "")
  | None => false
  end.

Definition len (h : option string) : nat :=
  match h with Some s => String.length s | None => 0 end.

Definition object_path (git_hash : string) : string :=
  let obj_dir := Py.take 2 git_hash in
  let obj_file := Py.drop 2 git_hash in
  ".git/objects/" +:+ obj_dir +:+ "/" +:+ obj_file.

(** The loop of [download_objects]: the arguments of the calls of
    [download_file] handed to the executor, in the order of submission. *)
Fixpoint submitted (hashes : list (option string)) : list string :=
  match hashes with
  | [] => []
  | git_hash :: hashes' =>
      match git_hash with
      | Some h =>
          if negb (truthy git_hash) || negb (len git_hash =? 40)%nat
          then submitted hashes'
          else object_path h :: submitted hashes'
      | None => submitted hashes'
      end
  end.

(** A submitted call keeps its outcome, exception included, in its
    future, and the script never asks a future for it. *)
Definition run_future (self : GitExtractor) (obj_path : string) : M unit :=
  try_except (download_file self obj_path ;;; ret tt) (fun _ => ret tt).

(** [ThreadPoolExecutor] refuses a pool without workers.  The submitted
    calls run here one after the other in the order of submission,
    which is one of the schedules of the pool; [wait] and the end of
    the [with] block return when all of them have run. *)
Definition download_objects (self : GitExtractor) (hashes : list (option string))
  : M unit :=
  if (threads self <=? 0)%Z then raise ValueError
  else for_each (submitted hashes) (run_future self).

Definition download_pack_files (self : GitExtractor) : M unit :=
  let packs_info_path := PosixPath.join (git_dir self) "objects/info/packs" in
  present <- os_path_exists packs_info_path ;;
  if negb present then ret tt
  else
    content <- read_file packs_info_path ;;
    let pack_matches := Py.pack_pattern_findall content in
    for_each pack_matches (fun '(_, pack_file) =>
      let pack_path := ".git/objects/pack/" +:+ pack_file in
      let idx_path :=
        ".git/objects/pack/" +:+ Py.replace pack_file ".pack" ".idx" in
      download_file self pack_path ;;;
      download_file self idx_path ;;;
      ret tt).

Definition execute (self : GitExtractor) : M bool :=
  found <- check_git_exists self ;;
  if negb found then ret false
  else
    download_git_files self ;;;
    head_hash <- extract_hash_from_head self ;;
    (if truthy head_hash then download_objects self [head_hash] else ret tt) ;;;
    download_pack_files self ;;;
    ret true.

(** [main], after the parsing of the command line. *)
Definition main (urljoin_ : string -> string -> result string)
  (session_ : transport) (url_ output_dir_ : string) (threads_ : Z) : M unit :=
  extractor <- __init__ urljoin_ session_ url_ output_dir_ threads_ ;;
  execute extractor ;;;
  ret tt.

(** ** Predicates used in the statements *)

(** The shape of a content hash: exactly 40 characters of [[0-9a-f]]. *)
Definition is_content_hash (h : string) : bool :=
  (String.length h =? 40)%nat && Py.all_chars Py.is_hex h.

(** A success status in the sense of the specification: any 2xx. *)
Definition is_success_status (st : Z) : bool :=
  ((200 <=? st) && (st <? 300))%Z.

(** [d'] has every node of [d], unchanged, and directories besides. *)
Definition grows (d d' : OS.fs) : Prop :=
  OS.cwd d' = OS.cwd d /\
  forall l, OS.node_at d' l = OS.node_at d l \/
            (OS.node_at d l = None /\ OS.node_at d' l = Some OS.Dir).

(** The node [l] lies in the subtree of the directory that the path
    [root] names. *)
Definition inside (d : OS.fs) (root : string) (l : list string) : Prop :=
  exists r, OS.resolve d root = Ok r /\ r `prefix_of` l.

(** The request URLs of the calls [download_file self p] for [p] in
    [paths]: a call whose URL cannot be built sends nothing. *)
Definition fetch_urls (self : GitExtractor) (paths : list string) : list string :=
  omap (fun p => match urljoin self (url self) p with
                 | Ok u => Some u
                 | Raise _ => None
                 end) paths.


(** [d'] keeps every entry of [d]: a directory is still a directory and
    a regular file is still a regular file, whatever it holds now. *)
Definition keeps (d d' : OS.fs) : Prop :=
  OS.cwd d' = OS.cwd d /\
  forall l, match OS.node_at d l with
            | Some OS.Dir => OS.node_at d' l = Some OS.Dir
            | Some (OS.File _) => exists data, OS.node_at d' l = Some (OS.File data)
            | None => True
            end.

(** A computation that, however it ends, sends GET requests only and
    keeps every entry of the disk. *)
Definition fetch_only {A : Type} (m : M A) : Prop :=
  forall w, exists fetches,
    sent (snd (m w)) = sent w ++ map GET fetches
    /\ keeps (disk w) (disk (snd (m w))).

(** A computation that, however it ends, sends nothing and adds
    nothing but directories to the disk. *)
Definition makes_directories_only {A : Type} (m : M A) : Prop :=
  forall w, sent (snd (m w)) = sent w /\ grows (disk w) (disk (snd (m w))).


(** ** Scenarios: concrete servers and disks *)

Module Scenario.

(** A disk with the working directory [/home/user] and nothing else. *)
Definition disk0 : OS.fs :=
  OS.Fs ["home"; "user"]
        (<[ ["home"] := OS.Dir ]> (<[ ["home"; "user"] := OS.Dir ]> ∅)).

Definition world0 : world := World disk0 [].

Fixpoint assoc (table : list (string * string)) (u : string) : option string :=
  match table with
  | [] => None
  | (k, v) :: table' => if String.eqb k u then Some v else assoc table' u
  end.

(** A static site: status 200 with the listed body, 404 otherwise. *)
Definition serve (table : list (string * string)) : transport :=
  fun _ r =>
    match r with
    | HEAD u | GET u =>
        match assoc table u with
        | Some body => Ok (Response 200 body)
        | None => Ok (Response 404 "")
        end
    end.

(** A server that answers every request with [201 Created] and a body. *)
Definition created : transport := fun _ _ => Ok (Response 201 "payload").

Definition nl : string := String Py.newline "".

Definition hash_a : string := "aaaaaaaaaaaaaaaaaaaaaaaaaaaaaaaaaaaaaaaa".
Definition hash_b : string := "bbbbbbbbbbbbbbbbbbbbbbbbbbbbbbbbbbbbbbbb".
Definition digits40 : string := "0123456789012345678901234567890123456789".


(** HEAD names the branch [main], whose file holds a hash. *)
Definition site_branch : transport :=
  serve [("http://example.com/.git/HEAD", "ref: refs/heads/main" +:+ nl);
         ("http://example.com/.git/refs/heads/main", hash_a +:+ nl)].

(** HEAD starts with [ref:] but has no space after it. *)
Definition site_no_space : transport :=
  serve [("http://example.com/.git/HEAD", "ref:refs/heads/main" +:+ nl)].

(** The manifest of the specification's example. *)
Definition site_two_packs : transport :=
  serve [("http://example.com/.git/HEAD", hash_a +:+ nl);
         ("http://example.com/.git/objects/info/packs",
          "P " +:+ hash_a +:+ " repo.pack" +:+ nl
          +:+ "P " +:+ hash_b +:+ " other.pack" +:+ nl)].

(** A manifest whose pack name has [.pack] twice. *)
Definition site_pack_pack : transport :=
  serve [("http://example.com/.git/HEAD", hash_a +:+ nl);
         ("http://example.com/.git/objects/info/packs",
          "P " +:+ hash_a +:+ " a.pack.pack" +:+ nl)].

(** HEAD names a path that climbs out of the metadata directory. *)
Definition site_dotdot : transport :=
  serve [("http://example.com/.git/HEAD", "ref: ../../evil" +:+ nl);
         ("http://example.com/evil", digits40)].

(** HEAD names an absolute path. *)
Definition site_absolute : transport :=
  serve [("http://example.com/.git/HEAD", "ref: /tmp/evil" +:+ nl);
         ("http://example.com/tmp/evil", digits40)].

(** A disk on which [out/.git/HEAD] is [ref: a/ref: b] and the file
    [out/.git/a/ref: b] holds a hash. *)
Definition disk_marker_twice : OS.fs :=
  OS.Fs ["home"; "user"]
        (<[ ["home"] := OS.Dir ]>
         (<[ ["home"; "user"] := OS.Dir ]>
          (<[ ["home"; "user"; "out"] := OS.Dir ]>
           (<[ ["home"; "user"; "out"; ".git"] := OS.Dir ]>
            (<[ ["home"; "user"; "out"; ".git"; "HEAD"]
                  := OS.File ("ref: a/ref: b" +:+ nl) ]>
             (<[ ["home"; "user"; "out"; ".git"; "a"] := OS.Dir ]>
              (<[ ["home"; "user"; "out"; ".git"; "a"; "ref: b"]
                    := OS.File (hash_a +:+ nl) ]> ∅))))))).

(** [disk0] once the constructor has made [out] and [out/.git]. *)
Definition disk_out : OS.fs :=
  OS.Fs ["home"; "user"]
        (<[ ["home"; "user"; "out"; ".git"] := OS.Dir ]>
         (<[ ["home"; "user"; "out"] := OS.Dir ]> (OS.nodes disk0))).

(** [disk_out] with entries added below [out/.git]. *)
Definition disk_with (entries : list (list string * OS.node)) : OS.fs :=
  OS.Fs ["home"; "user"]
        (foldr (fun '(l, n) m => <[ ["home"; "user"; "out"; ".git"] ++ l := n ]> m)
               (OS.nodes disk_out) entries).


(** HEAD holds a hash. *)
Definition disk_direct : OS.fs :=
  disk_with [(["HEAD"], OS.File (hash_a +:+ nl))].





(** The extractor object that the constructor returns for
    [http://example.com/] and [out], with a given session. *)
Definition extractor (session_ : transport) (url_ : string) : GitExtractor :=
  {| urljoin := Url.urljoin;
     session := session_;
     url := Py.rstrip_char "/" url_;
     output_dir := "out";
     threads := 10;
     git_files := catalog;
     git_dir := "out/.git" |}.

(** The same object with a pool of [threads_] workers. *)
Definition extractor_with_threads (session_ : transport) (url_ : string)
  (threads_ : Z) : GitExtractor :=
  {| urljoin := Url.urljoin;
     session := session_;
     url := Py.rstrip_char "/" url_;
     output_dir := "out";
     threads := threads_;
     git_files := catalog;
     git_dir := "out/.git" |}.

End Scenario.

(** * Properties of the embedding *)

(** ** Sanity checks of the library models *)

Example strip_ex : Py.strip (" ref: x" +:+ String Py.newline "") = "ref: x".
Proof. reflexivity. Qed.

Example split_ex1 : Py.split "ref: refs/heads/main" "ref: " = [""; "refs/heads/main"].
Proof. reflexivity. Qed.

Example split_ex2 : Py.split "ref:refs" "ref: " = ["ref:refs"].
Proof. reflexivity. Qed.

Example split_ex3 : Py.split "ref: a/ref: b" "ref: " = [""; "a/"; "b"].
Proof. reflexivity. Qed.

Example split_ex4 : Py.split "aref: " "ref: " = ["a"; ""].
Proof. reflexivity. Qed.

Example replace_ex : Py.replace "a.pack.pack" ".pack" ".idx" = "a.idx.idx".
Proof. reflexivity. Qed.

Example findall_ex :
  Py.pack_pattern_findall
    ("P aaaaaaaaaaaaaaaaaaaaaaaaaaaaaaaaaaaaaaaa repo.pack x" +:+ String Py.newline
     "xP bbbbbbbbbbbbbbbbbbbbbbbbbbbbbbbbbbbbbbbb o.pack.packP")
  = [("aaaaaaaaaaaaaaaaaaaaaaaaaaaaaaaaaaaaaaaa", "repo.pack");
     ("bbbbbbbbbbbbbbbbbbbbbbbbbbbbbbbbbbbbbbbb", "o.pack.pack")].
Proof. reflexivity. Qed.

Example join_ex1 : PosixPath.join "out" ".git/HEAD" = "out/.git/HEAD".
Proof. reflexivity. Qed.

Example join_ex2 : PosixPath.join3 "out/" ".git" "/etc/x" = "/etc/x".
Proof. reflexivity. Qed.

Example split_path_ex1 : PosixPath.split "out/.git//HEAD" = ("out/.git", "HEAD").
Proof. reflexivity. Qed.

Example split_path_ex2 : PosixPath.split "//x" = ("//", "x").
Proof. reflexivity. Qed.

Example split_path_ex3 : PosixPath.split "out/" = ("out", "").
Proof. reflexivity. Qed.

Example urljoin_ex1 :
  Url.urljoin "http://example.com" ".git/HEAD" = Ok "http://example.com/.git/HEAD".
Proof. reflexivity. Qed.

Example urljoin_ex2 :
  Url.urljoin "http://example.com/app" ".git/HEAD" = Ok "http://example.com/.git/HEAD".
Proof. reflexivity. Qed.

Example urljoin_ex3 :
  Url.urljoin "http://example.com/app/" ".git/HEAD" = Ok "http://example.com/app/.git/HEAD".
Proof. reflexivity. Qed.

Example urljoin_ex4 :
  Url.urljoin "http://example.com/a/b" ".git/../../evil" = Ok "http://example.com/evil".
Proof. reflexivity. Qed.

Example urljoin_ex5 :
  Url.urljoin "http://example.com/a/b?x=1#f" "/tmp/x;p?q" = Ok "http://example.com/tmp/x;p?q".
Proof. reflexivity. Qed.

Example urljoin_ex6 :
  Url.urljoin "http://example.com/a/b" "//evil.org/x" = Ok "http://evil.org/x".
Proof. reflexivity. Qed.

Example urljoin_ex7 :
  Url.urljoin "http://example.com/a/b" "//[/x" = Raise ValueError.
Proof. reflexivity. Qed.

(** ** Strings and paths *)

Section Strings.

Implicit Types (s t sep pre post h : string) (c : ascii) (p : ascii -> bool).












End Strings.

Section DirectHash.

Implicit Types (s t : string) (c : ascii) (p : ascii -> bool).

Lemma take_drop n s : Py.take n s +:+ Py.drop n s = s.
Proof.
  revert s. induction n as [|n IH]; intros [|c s]; try reflexivity.
  cbn [Py.take Py.drop].
  change (String c (Py.take n s) +:+ Py.drop n s)
    with (String c (Py.take n s +:+ Py.drop n s)).
  by rewrite IH.
Qed.

Lemma append_nil_r s : s +:+ "" = s.
Proof.
  induction s as [|c s IH]; [reflexivity|].
  change (String c s +:+ "") with (String c (s +:+ "")). by rewrite IH.
Qed.

(** What [rstrip] leaves does not end with a stripped character. *)
Lemma rstrip_by_last p s t c :
  Py.rstrip_by p s = t +:+ String c "" -> p c = false.
Proof.
  revert t. induction s as [|a s IH]; intros t.
  - by destruct t.
  - cbn [Py.rstrip_by]. destruct (Py.rstrip_by p s) as [|b r] eqn:Hr.
    + destruct (p a) eqn:Hpa; [by destruct t|].
      destruct t as [|a' t]; [by intros [= ->]|].
      change (String a' t +:+ String c "") with (String a' (t +:+ String c "")).
      intros [= _ Ht]. by destruct t.
    + destruct t as [|a' t]; [discriminate|].
      change (String a' t +:+ String c "") with (String a' (t +:+ String c "")).
      intros [= _ Ht]. by apply (IH t).
Qed.

(** On a stripped text, the pattern of HEAD accepts content hashes
    only. *)
Lemma ref_pattern_match_stripped s :
  Py.ref_pattern_match (Py.strip s) = true -> is_content_hash (Py.strip s) = true.
Proof.
  unfold Py.ref_pattern_match, is_content_hash.
  intros [[Hlen Hhex]%andb_prop Hend]%andb_prop.
  pose proof (take_drop 40 (Py.strip s)) as Htd.
  apply orb_prop in Hend as [Hend|Hend]; apply String.eqb_eq in Hend.
  - rewrite Hend, append_nil_r in Htd. rewrite <- Htd. by rewrite Hlen, Hhex.
  - rewrite Hend in Htd. unfold Py.strip in Htd.
    apply eq_sym, rstrip_by_last in Htd. discriminate.
Qed.

End DirectHash.

Section PathStrings.

Implicit Types (s t b : string) (c : ascii).

Lemma prefix_slash c s :
  String.prefix "/" (String c s) = Ascii.eqb c "/".
Proof.
  change (String.prefix "/" (String c s))
    with (if ascii_dec "/" c then String.prefix "" s else false).
  destruct (ascii_dec "/" c) as [<-|Hne].
  - by destruct s.
  - symmetry. apply Ascii.eqb_neq. congruence.
Qed.

Lemma split_go_nonempty sep skip s : Py.split_go sep skip s <> [].
Proof.
  revert skip. induction s as [|c s IH]; intros skip; cbn [Py.split_go]; [done|].
  destruct skip; [|apply IH].
  destruct (String.prefix sep (String c s)); [done|].
  by destruct (Py.split_go sep 0 s).
Qed.

(** The components of [b/t] are those of [b], then those of [t]. *)
Lemma components_app b t :
  OS.components (b +:+ "/" +:+ t) = OS.components b ++ OS.components t.
Proof.
  unfold OS.components, Py.split.
  induction b as [|c b IH].
  - change ("" +:+ "/" +:+ t) with (String "/" t).
    cbn [Py.split_go]. rewrite prefix_slash. reflexivity.
  - change (String c b +:+ "/" +:+ t) with (String c (b +:+ "/" +:+ t)).
    cbn [Py.split_go]. rewrite !prefix_slash.
    destruct (Ascii.eqb c "/").
    + cbn [String.length Nat.sub]. rewrite IH. reflexivity.
    + rewrite IH.
      pose proof (split_go_nonempty "/" 0 b) as Hne.
      destruct (Py.split_go "/" 0 b); [contradiction | reflexivity].
Qed.

Lemma append_assoc_ s t b : (s +:+ t) +:+ b = s +:+ t +:+ b.
Proof.
  induction s as [|c s IH]; [reflexivity|].
  change (String c ((s +:+ t) +:+ b) = String c (s +:+ t +:+ b)).
  by rewrite IH.
Qed.

Lemma endswith_char_app s c :
  Py.endswith_char s c = true -> exists b, s = b +:+ String c "".
Proof.
  induction s as [|d s IH]; [discriminate|].
  cbn [Py.endswith_char]. destruct s as [|e s'].
  - intros ->%Ascii.eqb_eq. by exists "".
  - intros [b ->]%IH. by exists (String d b).
Qed.

(** [os.path.join(out, '.git')] puts [/.git] after [out], or [.git]
    when [out] ends with a slash already. *)
Lemma join_git out :
  out <> "" ->
  exists base, PosixPath.join out ".git" = base +:+ "/" +:+ ".git"
               /\ (out = base \/ out = base +:+ "/").
Proof.
  intros Hne. unfold PosixPath.join.
  change (Py.startswith ".git" "/") with false. cbv iota.
  destruct (String.eqb out "") eqn:Hempty.
  { apply String.eqb_eq in Hempty. contradiction. }
  cbn [orb].
  destruct (Py.endswith_char out "/") eqn:Hend.
  - apply endswith_char_app in Hend as [base ->].
    exists base. split; [apply append_assoc_ | by right].
  - exists out. split; [reflexivity | by left].
Qed.

Lemma start_join_git d out base :
  out <> "" -> (out = base \/ out = base +:+ "/") ->
  OS.start d (base +:+ "/" +:+ ".git") = OS.start d out.
Proof.
  intros Hne Hout. unfold OS.start, Py.startswith.
  destruct base as [|c b].
  - destruct Hout as [->| ->]; [contradiction | reflexivity].
  - destruct Hout as [->| ->];
      change (String c b +:+ ?x) with (String c (b +:+ x));
      by rewrite !prefix_slash.
Qed.

(** The last part of [base/.git] in the sense of [os.path.split]. *)
Lemma cut_git base :
  exists c h, PosixPath.cut (base +:+ "/" +:+ ".git") = (String c h, ".git").
Proof.
  induction base as [|d b (c & h & IH)].
  - by exists "/"%char, "".
  - exists d, (String c h).
    change (String d b +:+ "/" +:+ ".git") with (String d (b +:+ "/" +:+ ".git")).
    cbn [PosixPath.cut]. by rewrite IH.
Qed.

Lemma split_git base : snd (PosixPath.split (base +:+ "/" +:+ ".git")) = ".git".
Proof.
  unfold PosixPath.split. destruct (cut_git base) as (c & h & ->). reflexivity.
Qed.

End PathStrings.

(** ** The file system *)

Section FileSystem.

Implicit Types (d : OS.fs) (l cur k : list string) (n : OS.node).

Lemma node_at_put_eq d k n : k <> [] -> OS.node_at (OS.put d k n) k = Some n.
Proof.
  intros Hk. destruct k as [|c k']; [congruence|].
  simpl. apply lookup_insert_eq.
Qed.

Lemma node_at_put_ne d k n l : l <> k -> OS.node_at (OS.put d k n) l = OS.node_at d l.
Proof.
  intros Hne. destruct l as [|c l']; [reflexivity|].
  simpl. by apply lookup_insert_ne.
Qed.

(** A directory stays one when a node that is not a directory is
    replaced. *)
Lemma dir_put d k n l :
  OS.node_at d k <> Some OS.Dir ->
  OS.node_at d l = Some OS.Dir ->
  OS.node_at (OS.put d k n) l = Some OS.Dir.
Proof.
  intros Hk Hl. rewrite node_at_put_ne; [exact Hl|].
  intros ->. contradiction.
Qed.

Lemma walk_put d k n cur comps l :
  OS.node_at d k <> Some OS.Dir ->
  OS.walk d cur comps = Ok l ->
  OS.walk (OS.put d k n) cur comps = Ok l.
Proof.
  intros Hk. revert cur.
  induction comps as [|c comps IH]; intros cur Hw; simpl in *; [exact Hw|].
  destruct (OS.node_at d cur) as [[data|]|] eqn:Hcur; try discriminate.
  rewrite (dir_put d k n cur Hk Hcur). by apply IH.
Qed.

Lemma start_put d k n p : OS.start (OS.put d k n) p = OS.start d p.
Proof. reflexivity. Qed.

Lemma resolve_put d k n p l :
  OS.node_at d k <> Some OS.Dir ->
  OS.resolve d p = Ok l ->
  OS.resolve (OS.put d k n) p = Ok l.
Proof.
  unfold OS.resolve. intros Hk.
  destruct (String.eqb p ""); [discriminate|].
  rewrite start_put. by apply walk_put.
Qed.

(** What has been written is what is read back. *)
Lemma write_bytes_read d p data d' :
  OS.write_bytes d p data = Ok d' -> OS.read_bytes d' p = Ok data.
Proof.
  unfold OS.write_bytes, OS.read_bytes, OS.stat.
  destruct (OS.names_directory p).
  { destruct (OS.walk _ _ _); discriminate. }
  destruct (OS.resolve d p) as [l|e] eqn:Hr; [|discriminate].
  assert (Hl : OS.node_at d l <> Some OS.Dir ->
               OS.read_bytes (OS.put d l (OS.File data)) p = Ok data).
  { intros Hnd. unfold OS.read_bytes, OS.stat.
    rewrite (resolve_put d l (OS.File data) p l Hnd Hr).
    rewrite node_at_put_eq; [reflexivity|].
    intros ->. by apply Hnd. }
  unfold OS.read_bytes, OS.stat in Hl.
  destruct (OS.node_at d l) as [[old|]|] eqn:Hat.
  - intros [= <-]. by apply Hl.
  - discriminate.
  - unfold OS.create.
    destruct (OS.node_at d (removelast l)) as [[?|]|]; try discriminate.
    intros [= <-]. by apply Hl.
Qed.

Lemma grows_refl d : grows d d.
Proof. split; [reflexivity | by left]. Qed.

Lemma grows_trans d1 d2 d3 : grows d1 d2 -> grows d2 d3 -> grows d1 d3.
Proof.
  intros [Hc1 H1] [Hc2 H2]. split; [congruence|].
  intros l. destruct (H1 l) as [E1|[E1 E1']], (H2 l) as [E2|[E2 E2']].
  - left. congruence.
  - right. split; congruence.
  - right. split; congruence.
  - congruence.
Qed.

Lemma mkdir_grows d p d' : OS.mkdir d p = Ok d' -> grows d d'.
Proof.
  unfold OS.mkdir. destruct (String.eqb p ""); [discriminate|].
  destruct (OS.walk _ _ _) as [l|]; [|discriminate].
  destruct (OS.node_at d l) eqn:Hat; [discriminate|].
  unfold OS.create. destruct (OS.node_at d (removelast l)) as [[?|]|]; try discriminate.
  intros [= <-]. split; [reflexivity|]. intros k.
  destruct (decide (k = l)) as [->|Hne].
  - right. split; [exact Hat|]. apply node_at_put_eq. intros ->. discriminate.
  - left. by apply node_at_put_ne.
Qed.

Lemma makedirs_fuel_grows fuel d name exist_ok :
  grows d (snd (OS.makedirs_fuel fuel d name exist_ok)).
Proof.
  revert d name. induction fuel as [|fuel IH]; intros d name; simpl.
  - apply grows_refl.
  - assert (Hfinal : forall d1, grows d d1 ->
      grows d (snd (match OS.mkdir d1 name with
                    | Ok d2 => (Ok tt, d2)
                    | Raise e => if negb exist_ok || negb (OS.isdir d1 name)
                                 then (Raise e, d1) else (Ok tt, d1)
                    end))).
    { intros d1 Hd1. destruct (OS.mkdir d1 name) as [d2|e] eqn:Hm.
      - simpl. eapply grows_trans; [exact Hd1|]. by eapply mkdir_grows.
      - by destruct (negb exist_ok || negb (OS.isdir d1 name)). }
    destruct (PosixPath.split name) as [head tail].
    destruct (if String.eqb tail "" then PosixPath.split head else (head, tail))
      as [head' tail'].
    destruct (negb (String.eqb head' "") && negb (String.eqb tail' "")
              && negb (OS.exists_ d head')).
    + specialize (IH d head').
      destruct (OS.makedirs_fuel fuel d head' exist_ok) as [[[]|e] d1]; simpl in IH.
      * destruct (String.eqb tail' "."); [exact IH | by apply Hfinal].
      * destruct (is_FileExistsError e); [|exact IH].
        destruct (String.eqb tail' "."); [exact IH | by apply Hfinal].
    + apply Hfinal, grows_refl.
Qed.

Lemma makedirs_grows d name exist_ok :
  grows d (snd (OS.makedirs d name exist_ok)).
Proof. apply makedirs_fuel_grows. Qed.

End FileSystem.

Lemma read_text_exists d p s : OS.read_text d p = Ok s -> OS.exists_ d p = true.
Proof.
  unfold OS.read_text, OS.read_bytes, OS.exists_.
  by destruct (OS.stat d p) as [[?|]|].
Qed.

Section Directories.

Implicit Types (d : OS.fs) (l cur : list string) (comps : list string).

Lemma walk_app d cur comps1 comps2 :
  OS.walk d cur (comps1 ++ comps2)
  = match OS.walk d cur comps1 with
    | Ok l => OS.walk d l comps2
    | Raise e => Raise e
    end.
Proof.
  revert cur. induction comps1 as [|c comps1 IH]; intros cur; [reflexivity|].
  cbn [app OS.walk]. by destruct (OS.node_at d cur) as [[?|]|].
Qed.

Lemma walk_one_inv d cur c l :
  OS.walk d cur [c] = Ok l ->
  OS.node_at d cur = Some OS.Dir /\ l = OS.enter cur c.
Proof.
  cbn [OS.walk]. destruct (OS.node_at d cur) as [[?|]|]; try discriminate.
  by intros [= <-].
Qed.

(** Trailing slashes lead nowhere else once the directory exists. *)
Lemma walk_drop_trailing_empty d comps cur l :
  OS.walk d cur (OS.drop_trailing_empty comps) = Ok l ->
  OS.node_at d l = Some OS.Dir ->
  OS.walk d cur comps = Ok l.
Proof.
  revert cur. induction comps as [|c comps IH]; intros cur Hw Hdir; [exact Hw|].
  cbn [OS.drop_trailing_empty] in Hw.
  destruct (OS.drop_trailing_empty comps) as [|c' r] eqn:Hdte.
  - destruct (String.eqb c "") eqn:Hc.
    + apply String.eqb_eq in Hc as ->. injection Hw as <-.
      cbn [OS.walk]. rewrite Hdir. by apply IH.
    + apply walk_one_inv in Hw as [Hcur ->].
      cbn [OS.walk]. rewrite Hcur. by apply IH.
  - cbn [OS.walk] in *.
    destruct (OS.node_at d cur) as [[?|]|]; try discriminate. by apply IH.
Qed.

(** A directory just made is a directory. *)
Lemma mkdir_isdir d p d' : OS.mkdir d p = Ok d' -> OS.isdir d' p = true.
Proof.
  unfold OS.mkdir. destruct (String.eqb p "") eqn:Hp; [discriminate|].
  destruct (OS.walk d (OS.start d p) (OS.drop_trailing_empty (OS.components p)))
    as [l|] eqn:Hw; [|discriminate].
  destruct (OS.node_at d l) eqn:Hat; [discriminate|].
  unfold OS.create.
  destruct (OS.node_at d (removelast l)) as [[?|]|]; try discriminate.
  intros [= <-].
  assert (Hl : l <> []) by (intros ->; discriminate).
  assert (Hnd : OS.node_at d l <> Some OS.Dir) by congruence.
  pose proof (node_at_put_eq d l OS.Dir Hl) as Hnew.
  unfold OS.isdir, OS.stat, OS.resolve. rewrite Hp, start_put.
  rewrite (walk_drop_trailing_empty _ _ _ l
             (walk_put d l OS.Dir _ _ l Hnd Hw) Hnew).
  by rewrite Hnew.
Qed.

(** [makedirs] without [exist_ok], on a path that ends in [.git]: when
    it returns, its last step was a successful [mkdir]. *)
Lemma makedirs_git_isdir d base d' :
  OS.makedirs d (base +:+ "/" +:+ ".git") false = (Ok tt, d') ->
  OS.isdir d' (base +:+ "/" +:+ ".git") = true.
Proof.
  set (name := base +:+ "/" +:+ ".git").
  assert (Hfinal : forall d1,
    match OS.mkdir d1 name with
    | Ok d2 => (Ok tt, d2)
    | Raise e => if negb false || negb (OS.isdir d1 name)
                 then (Raise e, d1) else (Ok tt, d1)
    end = (Ok tt, d') -> OS.isdir d' name = true).
  { intros d1. destruct (OS.mkdir d1 name) as [d2|e] eqn:Hm.
    - intros [= <-]. by eapply mkdir_isdir.
    - discriminate. }
  unfold OS.makedirs. generalize (String.length name). intros fuel.
  cbn [OS.makedirs_fuel].
  pose proof (split_git base) as Htail. fold name in Htail.
  destruct (PosixPath.split name) as [head tail]. cbn [snd] in Htail. subst tail.
  change (String.eqb ".git" "") with false. cbv beta iota.
  change (String.eqb ".git" "") with false.
  change (String.eqb ".git" ".") with false. cbv beta iota.
  match goal with |- (if ?c then _ else _) = _ -> _ => destruct c end.
  - destruct (OS.makedirs_fuel fuel d head false) as [[[]|e] d1].
    + apply Hfinal.
    + destruct (is_FileExistsError e); [apply Hfinal | discriminate].
  - apply Hfinal.
Qed.

(** Where [out/.git] exists, [out] is a directory. *)
Lemma exists_git_isdir d out base :
  out <> "" -> (out = base \/ out = base +:+ "/") ->
  OS.exists_ d (base +:+ "/" +:+ ".git") = true ->
  OS.isdir d out = true.
Proof.
  intros Hne Hout. unfold OS.exists_, OS.isdir, OS.stat, OS.resolve.
  rewrite (start_join_git d out base Hne Hout).
  destruct (String.eqb (base +:+ "/" +:+ ".git") ""); [discriminate|].
  destruct (String.eqb out "") eqn:Hempty.
  { apply String.eqb_eq in Hempty. contradiction. }
  rewrite components_app, walk_app.
  destruct (OS.walk d (OS.start d out) (OS.components base)) as [l0|] eqn:Hw;
    [|discriminate].
  change (OS.components ".git") with [".git"].
  destruct (OS.walk d l0 [".git"]) as [l|] eqn:Hw2; [|discriminate].
  apply walk_one_inv in Hw2 as [Hdir _]. intros _.
  destruct Hout as [Hb|Hb].
  - rewrite Hb at 2. by rewrite Hw, Hdir.
  - assert (Hc : OS.components out = OS.components base ++ [""]).
    { rewrite Hb. exact (components_app base ""). }
    rewrite Hc, walk_app, Hw.
    cbn [OS.walk]. rewrite Hdir.
    change (OS.enter l0 "") with l0. by rewrite Hdir.
Qed.

End Directories.

(** ** The recursion of [makedirs] ends *)

Section Fuel.

Lemma rstrip_by_length p s : String.length (Py.rstrip_by p s) <= String.length s.
Proof.
  induction s as [|c s IH]; [reflexivity|].
  cbn [Py.rstrip_by String.length].
  destruct (Py.rstrip_by p s) as [|c' r].
  - destruct (p c); cbn [String.length]; lia.
  - cbn [String.length] in *. lia.
Qed.

Lemma cut_length s :
  String.length (fst (PosixPath.cut s)) + String.length (snd (PosixPath.cut s))
  = String.length s.
Proof.
  induction s as [|c s IH]; [reflexivity|].
  cbn [PosixPath.cut]. destruct (PosixPath.cut s) as [[|c' h] t]; cbn [fst snd] in *.
  - destruct (Ascii.eqb c "/"); cbn [String.length fst snd] in *; lia.
  - cbn [String.length fst snd] in *. lia.
Qed.

Lemma split_length s :
  String.length (fst (PosixPath.split s)) + String.length (snd (PosixPath.split s))
  <= String.length s.
Proof.
  unfold PosixPath.split. pose proof (cut_length s) as Hcut.
  destruct (PosixPath.cut s) as [h t]. cbn [fst snd] in *.
  destruct (Py.all_chars (Ascii.eqb "/") h); [lia|].
  pose proof (rstrip_by_length (Ascii.eqb "/") h). unfold Py.rstrip_char. lia.
Qed.

Lemma mkdir_no_recursion_error d p : OS.mkdir d p <> Raise RecursionError.
Proof.
  unfold OS.mkdir. destruct (String.eqb p ""); [discriminate|].
  destruct (OS.walk d (OS.start d p) _) as [l|e] eqn:Hw.
  - destruct (OS.node_at d l); [discriminate|].
    unfold OS.create. by destruct (OS.node_at d (removelast l)) as [[?|]|].
  - intros [= ->]. revert Hw.
    generalize (OS.start d p) (OS.drop_trailing_empty (OS.components p)).
    intros cur comps. revert cur.
    induction comps as [|c comps IH]; intros cur; cbn [OS.walk]; [discriminate|].
    destruct (OS.node_at d cur) as [[?|]|]; try discriminate. apply IH.
Qed.

(** With fuel beyond the length of the path, the bound on the depth is
    never met. *)
Lemma makedirs_fuel_enough fuel d name exist_ok :
  String.length name < fuel ->
  fst (OS.makedirs_fuel fuel d name exist_ok) <> Raise RecursionError.
Proof.
  revert d name. induction fuel as [|fuel IH]; intros d name Hlen; [lia|].
  cbn [OS.makedirs_fuel].
  assert (Hfinal : forall d1,
    fst (match OS.mkdir d1 name with
         | Ok d2 => (Ok tt, d2)
         | Raise e => if negb exist_ok || negb (OS.isdir d1 name)
                      then (Raise e, d1) else (Ok tt, d1)
         end) <> Raise RecursionError).
  { intros d1. pose proof (mkdir_no_recursion_error d1 name) as Hm.
    destruct (OS.mkdir d1 name) as [d2|e]; [discriminate|].
    destruct (negb exist_ok || negb (OS.isdir d1 name)); [|discriminate].
    cbn [fst]. congruence. }
  pose proof (split_length name) as Hs1.
  destruct (PosixPath.split name) as [head tail]. cbn [fst snd] in Hs1.
  assert (Hshort : forall head' tail',
    (if String.eqb tail "" then PosixPath.split head else (head, tail)) = (head', tail') ->
    tail' <> "" -> String.length head' < fuel).
  { intros head' tail' Heq Htail.
    assert (0 < String.length tail') by (destruct tail'; [done | cbn; lia]).
    destruct (String.eqb tail "").
    - pose proof (split_length head) as Hs2. rewrite Heq in Hs2.
      cbn [fst snd] in Hs2. lia.
    - injection Heq as <- <-. lia. }
  destruct (if String.eqb tail "" then PosixPath.split head else (head, tail))
    as [head' tail'].
  destruct (negb (String.eqb head' "") && negb (String.eqb tail' "")
            && negb (OS.exists_ d head')) eqn:Hcond; [|apply Hfinal].
  assert (Hlt : String.length head' < fuel).
  { apply (Hshort head' tail' eq_refl).
    apply andb_prop in Hcond as [Hcond _]. apply andb_prop in Hcond as [_ Hcond].
    intros ->. discriminate. }
  specialize (IH d head' Hlt).
  destruct (OS.makedirs_fuel fuel d head' exist_ok) as [[[]|e] d1]; cbn [fst] in IH.
  - destruct (String.eqb tail' "."); [discriminate | apply Hfinal].
  - destruct e; cbn [is_FileExistsError]; try (cbn [fst]; congruence).
    destruct (String.eqb tail' "."); [discriminate | apply Hfinal].
Qed.

Lemma makedirs_no_recursion_error d name exist_ok :
  fst (OS.makedirs d name exist_ok) <> Raise RecursionError.
Proof. apply makedirs_fuel_enough. lia. Qed.

End Fuel.

(** ** [download_file] *)

Section DownloadFile.

Variable self : GitExtractor.

(** The body of [download_file], case by case, once the URL is built. *)
Lemma download_file_eq path w u :
  urljoin self (url self) path = Ok u ->
  download_file self path w =
    let local_path := PosixPath.join (output_dir self) path in
    let log := sent w ++ [GET u] in
    match session self (sent w) (GET u) with
    | Raise _ => (Ok false, World (disk w) log)
    | Ok response =>
        if (status_code response =? 200)%Z then
          match OS.makedirs (disk w) (PosixPath.dirname local_path) true with
          | (Raise _, d1) => (Ok false, World d1 log)
          | (Ok _, d1) =>
              match OS.write_bytes d1 local_path (content response) with
              | Ok d2 => (Ok true, World d2 log)
              | Raise _ => (Ok false, World d1 log)
              end
          end
        else (Ok false, World (disk w) log)
    end.
Proof.
  intros Hu. unfold download_file, bind, lift, try_except, send, ret.
  rewrite Hu. simpl.
  destruct (session self (sent w) (GET u)) as [response|e]; [|reflexivity].
  destruct (status_code response =? 200)%Z; [|reflexivity].
  unfold os_makedirs, write_file. simpl.
  destruct (OS.makedirs (disk w) _ true) as [[[]|e] d1]; [|reflexivity].
  simpl. by destruct (OS.write_bytes d1 _ _).
Qed.

Lemma download_file_raises path w e :
  urljoin self (url self) path = Raise e ->
  download_file self path w = (Raise e, w).
Proof.
  intros Hu. unfold download_file, bind, lift. by rewrite Hu.
Qed.

(** One call sends at most one request: the GET of the joined URL. *)
Lemma download_file_sent path w :
  sent (snd (download_file self path w))
  = sent w ++ map GET (fetch_urls self [path]).
Proof.
  unfold fetch_urls. simpl.
  destruct (urljoin self (url self) path) as [u|e] eqn:Hu.
  - rewrite (download_file_eq _ _ _ Hu). simpl.
    destruct (session self (sent w) (GET u)) as [response|]; [|reflexivity].
    destruct (status_code response =? 200)%Z; [|reflexivity].
    destruct (OS.makedirs _ _ _) as [[[]|] d1]; [|reflexivity].
    by destruct (OS.write_bytes _ _ _).
  - rewrite (download_file_raises _ _ _ Hu). simpl. by rewrite app_nil_r.
Qed.

Lemma fetch_urls_cons p paths :
  fetch_urls self (p :: paths) = fetch_urls self [p] ++ fetch_urls self paths.
Proof.
  unfold fetch_urls. simpl.
  by destruct (urljoin self (url self) p).
Qed.

Lemma run_future_ok obj_path w :
  exists w', run_future self obj_path w = (Ok tt, w') /\
             sent w' = sent w ++ map GET (fetch_urls self [obj_path]).
Proof.
  pose proof (download_file_sent obj_path w) as Hs.
  unfold run_future, try_except, bind, ret.
  destruct (download_file self obj_path w) as [[b|e] w1]; simpl in Hs; eauto.
Qed.

Lemma for_each_run_future paths w :
  exists w', for_each paths (run_future self) w = (Ok tt, w') /\
             sent w' = sent w ++ map GET (fetch_urls self paths).
Proof.
  revert w. induction paths as [|p paths IH]; intros w.
  - exists w. split; [reflexivity|]. simpl. by rewrite app_nil_r.
  - destruct (run_future_ok p w) as (w1 & Hr & Hs1).
    destruct (IH w1) as (w2 & Hf & Hs2).
    exists w2. split.
    + simpl. unfold bind at 1. by rewrite Hr.
    + rewrite Hs2, Hs1, (fetch_urls_cons p paths), map_app. by rewrite <- app_assoc.
Qed.

End DownloadFile.

Lemma download_file_returns (self : GitExtractor) (path : string) (w : world) (u : string) :
  urljoin self (url self) path = Ok u ->
  exists b, fst (download_file self path w) = Ok b.
Proof.
  intros Hu. rewrite (download_file_eq self path w u Hu). cbv zeta.
  destruct (session self (sent w) (GET u)) as [response|]; [|by exists false].
  destruct (status_code response =? 200)%Z; [|by exists false].
  destruct (OS.makedirs _ _ _) as [[[]|] d1]; [|by exists false].
  destruct (OS.write_bytes _ _ _); [by exists true | by exists false].
Qed.

(** ** The outcome of [download_file] *)

(** C3, as amended: once the URL is built, [download_file] sends one GET
    and never raises.  It reports success exactly when the status is
    200 and both the creation of the parent directories and the write
    succeed, and then the file at [output_dir/path] holds the whole
    body.  On any other status or a transport exception it reports
    failure and leaves the disk as it was. *)
Theorem download_file_outcome (self : GitExtractor) (path : string) (w : world)
  (u : string) :
  urljoin self (url self) path = Ok u ->
  let local_path := PosixPath.join (output_dir self) path in
  exists (b : bool) (w' : world),
    download_file self path w = (Ok b, w')
    /\ sent w' = sent w ++ [GET u]
    /\ (b = true <->
        exists response d1 d2,
          session self (sent w) (GET u) = Ok response
          /\ status_code response = 200%Z
          /\ OS.makedirs (disk w) (PosixPath.dirname local_path) true = (Ok tt, d1)
          /\ OS.write_bytes d1 local_path (content response) = Ok d2)
    /\ (b = true ->
        exists response,
          session self (sent w) (GET u) = Ok response
          /\ OS.read_bytes (disk w') local_path = Ok (content response))
    /\ ((forall response, session self (sent w) (GET u) = Ok response ->
                          status_code response <> 200%Z) ->
        b = false /\ disk w' = disk w).
Proof.
  intros Hu local_path. rewrite (download_file_eq self path w u Hu).
  fold local_path. cbv zeta.
  destruct (session self (sent w) (GET u)) as [response|e] eqn:Hs.
  - destruct (status_code response =? 200)%Z eqn:Hst.
    + apply Z.eqb_eq in Hst.
      destruct (OS.makedirs (disk w) (PosixPath.dirname local_path) true)
        as [[[]|e] d1] eqn:Hmk.
      * destruct (OS.write_bytes d1 local_path (content response)) as [d2|e] eqn:Hwr.
        -- exists true, (World d2 (sent w ++ [GET u])).
           split; [reflexivity|]. split; [reflexivity|]. split; [|split].
           ++ split; [|reflexivity]. intros _.
              exists response, d1, d2. auto.
           ++ intros _. exists response. split; [reflexivity|].
              simpl. exact (write_bytes_read d1 local_path _ d2 Hwr).
           ++ intros Hno. exfalso. exact (Hno response eq_refl Hst).
        -- exists false, (World d1 (sent w ++ [GET u])).
           split; [reflexivity|]. split; [reflexivity|]. split; [|split].
           ++ split; [discriminate|].
              intros (r & d1' & d2 & Hr & _ & Hm & Hw2).
              injection Hr as <-. injection Hm as <-.
              rewrite Hwr in Hw2. discriminate.
           ++ discriminate.
           ++ intros Hno. exfalso. exact (Hno response eq_refl Hst).
      * exists false, (World d1 (sent w ++ [GET u])).
        split; [reflexivity|]. split; [reflexivity|]. split; [|split].
        -- split; [discriminate|].
           intros (r & d1' & d2 & _ & _ & Hm & _). discriminate.
        -- discriminate.
        -- intros Hno. exfalso. exact (Hno response eq_refl Hst).
    + apply Z.eqb_neq in Hst.
      exists false, (World (disk w) (sent w ++ [GET u])).
      split; [reflexivity|]. split; [reflexivity|]. split; [|split].
      * split; [discriminate|].
        intros (r & d1 & d2 & Hr & Hok & _). injection Hr as <-. contradiction.
      * discriminate.
      * intros _. split; reflexivity.
  - exists false, (World (disk w) (sent w ++ [GET u])).
    split; [reflexivity|]. split; [reflexivity|]. split; [|split].
    + split; [discriminate|].
      intros (r & d1 & d2 & Hr & _). discriminate.
    + discriminate.
    + intros _. split; reflexivity.
Qed.

Lemma download_file_outcome_witness :
  let self := Scenario.extractor Scenario.site_two_packs "http://example.com/" in
  urljoin self (url self) ".git/HEAD" = Ok "http://example.com/.git/HEAD"
  /\ exists b w',
       download_file self ".git/HEAD" Scenario.world0 = (Ok b, w')
       /\ sent w' = [GET "http://example.com/.git/HEAD"].
Proof.
  split; [reflexivity|].
  destruct (download_file_outcome
              (Scenario.extractor Scenario.site_two_packs "http://example.com/")
              ".git/HEAD" Scenario.world0 "http://example.com/.git/HEAD" eq_refl)
    as (b & w' & H1 & H2 & _).
  exists b, w'. split; [exact H1 | exact H2].
Defined.

(** C3, as stated, fails: [201 Created] is a 2xx status, yet the body
    is not saved and the call reports failure. *)
Lemma created_response_is_not_saved :
  let self := Scenario.extractor Scenario.created "http://example.com/" in
  session self [] (GET "http://example.com/.git/HEAD") = Ok (Response 201 "payload")
  /\ is_success_status 201 = true
  /\ download_file self ".git/HEAD" Scenario.world0
     = (Ok false, World Scenario.disk0 [GET "http://example.com/.git/HEAD"]).
Proof.
  cbv zeta. split; [vm_compute; reflexivity|].
  split; vm_compute; reflexivity.
Qed.

(** ** Request URLs *)

(** C2: the code does not request [base_url + relative_path] when the
    base URL has a path.  For the base [http://example.com/app/] the
    constructor strips the final slash and [urljoin] then replaces the
    last segment: the probe and the fetch both go to
    [http://example.com/.git/HEAD], not to
    [http://example.com/app/.git/HEAD]. *)
Theorem base_path_segment_is_dropped :
  let base := "http://example.com/app/" in
  let run := main Url.urljoin (Scenario.serve []) base "out" 10 Scenario.world0 in
  let self := Scenario.extractor (Scenario.serve []) base in
  sent (snd run)
  = [HEAD "http://example.com/.git/HEAD";
     HEAD "http://example.com/.git/config";
     HEAD "http://example.com/.git/description"]
  /\ sent (snd (download_file self ".git/HEAD" Scenario.world0))
     = [GET "http://example.com/.git/HEAD"]
  /\ base +:+ ".git/HEAD" = "http://example.com/app/.git/HEAD".
Proof.
  cbv zeta. split; [vm_compute; reflexivity|].
  split; vm_compute; reflexivity.
Qed.

(** For a base URL without a path the joined URL is the expected one. *)
Example bare_host_requests :
  sent (snd (check_git_exists
               (Scenario.extractor (Scenario.serve []) "http://example.com/")
               Scenario.world0))
  = [HEAD "http://example.com/.git/HEAD";
     HEAD "http://example.com/.git/config";
     HEAD "http://example.com/.git/description"].
Proof. vm_compute; reflexivity. Qed.

(** ** The existence probe *)

Section Probe.

Variable self : GitExtractor.

(** The probe only sends HEAD requests and never touches the disk,
    however it ends. *)
Lemma check_git_exists_loop_effects files w :
  exists probes,
    snd (check_git_exists_loop self files w)
    = World (disk w) (sent w ++ map HEAD probes)
    /\ length probes <= length files.
Proof.
  revert w. induction files as [|git_file files IH]; intros w.
  - exists []. simpl. rewrite app_nil_r. by destruct w.
  - simpl. unfold bind at 1, lift.
    destruct (urljoin self (url self) git_file) as [u|e].
    + unfold bind at 1, try_except, bind at 1, send, ret.
      destruct (IH (World (disk w) (sent w ++ [HEAD u]))) as (probes & Hp & Hlen).
      simpl in Hp.
      destruct (session self (sent w) (HEAD u)) as [response|e].
      * destruct (status_code response =? 200)%Z.
        -- exists [u]. simpl. split; [reflexivity | lia].
        -- exists (u :: probes). rewrite Hp. simpl.
           rewrite <- app_assoc. split; [reflexivity | lia].
      * exists (u :: probes). rewrite Hp. simpl.
        rewrite <- app_assoc. split; [reflexivity | lia].
    + exists []. simpl. rewrite app_nil_r. split; [by destruct w | lia].
Qed.


(** [execute] returns false only by way of the failed probe. *)
Lemma execute_false w w' :
  execute self w = (Ok false, w') ->
  check_git_exists self w = (Ok false, w').
Proof.
  unfold execute. unfold bind at 1.
  destruct (check_git_exists self w) as [[[]|e] w1]; simpl.
  - unfold bind.
    destruct (download_git_files self w1) as [[[]|] w2]; [|discriminate].
    destruct (extract_hash_from_head self w2) as [[head_hash|] w3]; [|discriminate].
    destruct ((if truthy head_hash then download_objects self [head_hash] else ret tt) w3)
      as [[[]|] w4]; [|discriminate].
    destruct (download_pack_files self w4) as [[[]|] w5]; discriminate.
  - unfold ret. congruence.
  - discriminate.
Qed.

End Probe.



(** ** The constructor *)

(** The two guarded [makedirs] of the constructor. *)
Lemma init_inv urljoin_ session_ url_ out thr w self w1 :
  __init__ urljoin_ session_ url_ out thr w = (Ok self, w1) ->
  let git := PosixPath.join out ".git" in
  exists d1,
    sent w1 = sent w
    /\ (OS.exists_ (disk w) out = true /\ d1 = disk w
        \/ OS.exists_ (disk w) out = false
           /\ OS.makedirs (disk w) out false = (Ok tt, d1))
    /\ (OS.exists_ d1 git = true /\ disk w1 = d1
        \/ OS.exists_ d1 git = false
           /\ OS.makedirs d1 git false = (Ok tt, disk w1)).
Proof.
  intros Hinit git. unfold __init__, bind, os_path_exists, os_makedirs, ret in Hinit.
  fold git in Hinit. cbn [disk sent] in Hinit.
  destruct (OS.exists_ (disk w) out) eqn:Hout; cbn [negb] in Hinit.
  - destruct (OS.exists_ (disk w) git) eqn:Hgit; cbn [negb] in Hinit.
    + injection Hinit as _ <-. exists (disk w). auto.
    + destruct (OS.makedirs (disk w) git false) as [[[]|e] d2] eqn:Hmk;
        [|discriminate].
      injection Hinit as _ <-. exists (disk w). cbn [disk sent]. auto.
  - destruct (OS.makedirs (disk w) out false) as [[[]|e] d1] eqn:Hmk1;
      [|discriminate].
    cbn [disk sent] in Hinit.
    destruct (OS.exists_ d1 git) eqn:Hgit; cbn [negb] in Hinit.
    + injection Hinit as _ <-. exists d1. cbn [disk sent]. auto.
    + cbn [disk sent] in Hinit.
      destruct (OS.makedirs d1 git false) as [[[]|e] d2] eqn:Hmk2;
        [|discriminate].
      injection Hinit as _ <-. exists d1. cbn [disk sent]. auto.
Qed.

Lemma init_empty_output_dir urljoin_ session_ url_ thr w :
  fst (__init__ urljoin_ session_ url_ "" thr w) = Raise FileNotFoundError.
Proof. reflexivity. Qed.

(** C10: when the constructor returns, it has sent no request, it has
    added nothing but directories to the disk, [output_dir] is a
    directory and [output_dir/.git] exists, as a directory unless a
    regular file was in its place before.  A run that then ends with
    the aborted outcome leaves that disk as it is, both directories
    included, having sent HEAD requests only. *)
Theorem constructor_creates_directories
  (urljoin_ : string -> string -> result string) (session_ : transport)
  (url_ out : string) (thr : Z) (w : world) (self : GitExtractor) (w1 : world) :
  __init__ urljoin_ session_ url_ out thr w = (Ok self, w1) ->
  let git := PosixPath.join out ".git" in
  sent w1 = sent w
  /\ grows (disk w) (disk w1)
  /\ OS.isdir (disk w1) out = true
  /\ OS.exists_ (disk w1) git = true
  /\ (OS.isdir (disk w1) git = true
      \/ exists l data, OS.resolve (disk w1) git = Ok l
                        /\ OS.node_at (disk w) l = Some (OS.File data))
  /\ (forall w2, execute self w1 = (Ok false, w2) ->
        disk w2 = disk w1
        /\ exists probes, sent w2 = sent w1 ++ map HEAD probes).
Proof.
  intros Hinit git.
  assert (Hne : out <> "").
  { intros ->. pose proof (init_empty_output_dir urljoin_ session_ url_ thr w) as H.
    rewrite Hinit in H. discriminate. }
  destruct (init_inv _ _ _ _ _ _ _ _ Hinit) as (d1 & Hsent & Hstep1 & Hstep2).
  fold git in Hstep2.
  destruct (join_git out Hne) as (base & Hgit & Hbase). fold git in Hgit.
  assert (Hgrow1 : grows (disk w) d1).
  { destruct Hstep1 as [[_ ->]|[_ Hmk]]; [apply grows_refl|].
    pose proof (makedirs_grows (disk w) out false) as Hg.
    by rewrite Hmk in Hg. }
  assert (Hgrow : grows (disk w) (disk w1)).
  { eapply grows_trans; [exact Hgrow1|].
    destruct Hstep2 as [[_ ->]|[_ Hmk]]; [apply grows_refl|].
    pose proof (makedirs_grows d1 git false) as Hg.
    by rewrite Hmk in Hg. }
  assert (Hexists : OS.exists_ (disk w1) git = true).
  { destruct Hstep2 as [[He ->]|[_ Hmk]]; [exact He|].
    rewrite Hgit in Hmk. apply makedirs_git_isdir in Hmk. rewrite <- Hgit in Hmk.
    unfold OS.isdir in Hmk. unfold OS.exists_.
    by destruct (OS.stat (disk w1) git) as [[?|]|]. }
  split; [exact Hsent|]. split; [exact Hgrow|].
  split; [|split; [exact Hexists|split]].
  - apply (exists_git_isdir (disk w1) out base Hne Hbase). by rewrite <- Hgit.
  - unfold OS.exists_, OS.stat in Hexists. unfold OS.isdir, OS.stat.
    destruct (OS.resolve (disk w1) git) as [l|] eqn:Hres; [|discriminate].
    destruct (OS.node_at (disk w1) l) as [[data|]|] eqn:Hat; [|by left|discriminate].
    right. exists l, data. split; [reflexivity|].
    destruct Hgrow as [_ Hnodes].
    destruct (Hnodes l) as [Heq|[_ Hdir]]; congruence.
  - intros w2 Hexec. apply execute_false in Hexec.
    destruct (check_git_exists_loop_effects self (firstn 3 (git_files self)) w1)
      as (probes & Heff & _).
    fold (check_git_exists self w1) in Heff. rewrite Hexec in Heff.
    cbn [snd] in Heff. subst w2. cbn [disk sent]. eauto.
Qed.

(** The constructor on the empty working directory, for any imports. *)
Lemma init_on_world0 urljoin_ session_ url_ thr :
  __init__ urljoin_ session_ url_ "out" thr Scenario.world0
  = (Ok {| urljoin := urljoin_;
           session := session_;
           url := Py.rstrip_char "/" url_;
           output_dir := "out";
           threads := thr;
           git_files := catalog;
           git_dir := "out/.git" |},
     World Scenario.disk_out []).
Proof. vm_compute. reflexivity. Qed.

Lemma constructor_creates_directories_witness :
  let self := Scenario.extractor (Scenario.serve []) "http://example.com/" in
  let w1 := World Scenario.disk_out [] in
  __init__ Url.urljoin (Scenario.serve []) "http://example.com/" "out" 10
           Scenario.world0 = (Ok self, w1)
  /\ sent w1 = sent Scenario.world0
  /\ OS.isdir (disk w1) "out" = true
  /\ OS.exists_ (disk w1) (PosixPath.join "out" ".git") = true.
Proof.
  cbv zeta.
  pose proof (init_on_world0 Url.urljoin (Scenario.serve []) "http://example.com/" 10)
    as Hinit.
  split; [exact Hinit|].
  destruct (constructor_creates_directories _ _ _ _ _ _ _ _ Hinit)
    as (Hs & _ & Hd & He & _).
  split; [exact Hs|]. split; [exact Hd | exact He].
Defined.

(** ** The reference resolver *)

(** Without a local pointer file the resolver returns nothing. *)
Lemma extract_hash_without_head (self : GitExtractor) (w : world) :
  OS.exists_ (disk w) (PosixPath.join (git_dir self) "HEAD") = false ->
  extract_hash_from_head self w = (Ok None, w).
Proof.
  intros Hno. unfold extract_hash_from_head, bind, os_path_exists.
  rewrite Hno. reflexivity.
Qed.

(** A hash that the resolver takes from HEAD itself has the shape of a
    content hash; nothing is sent and nothing is written. *)
Lemma direct_head_is_validated (self : GitExtractor) (w w' : world) (raw h : string) :
  OS.read_text (disk w) (PosixPath.join (git_dir self) "HEAD") = Ok raw ->
  Py.startswith (Py.strip raw) "ref:" = false ->
  extract_hash_from_head self w = (Ok (Some h), w') ->
  h = Py.strip raw /\ is_content_hash h = true /\ w' = w.
Proof.
  intros Hhead Hstart.
  unfold extract_hash_from_head, bind, os_path_exists, read_file.
  rewrite (read_text_exists _ _ _ Hhead). cbn [negb]. rewrite Hhead, Hstart.
  destruct (Py.ref_pattern_match (Py.strip raw)) eqn:Hm; [|discriminate].
  unfold ret. intros [= <- <-].
  split; [reflexivity|]. split; [by apply ref_pattern_match_stripped | reflexivity].
Qed.

(** ** Symbolic pointers that the resolver follows *)


Example branch_head_resolves_locally :
  let self := Scenario.extractor Scenario.site_branch "http://example.com/" in
  let w := snd (download_git_files self (World Scenario.disk_out [])) in
  fst (extract_hash_from_head self w) = Ok (Some Scenario.hash_a)
  /\ sent (snd (extract_hash_from_head self w)) = sent w.
Proof. cbv zeta. split; vm_compute; reflexivity. Qed.

(** ** Pointers that the resolver does not follow *)


(** C4: the code raises where the claim promises "nothing".  A HEAD that
    starts with [ref:] without the space is taken for a symbolic
    pointer, [split('ref: ')] then yields a single piece and the index
    [[1]] raises [IndexError], which leaves the resolver and the whole
    run. *)
Theorem marker_without_space_raises :
  let run := main Url.urljoin Scenario.site_no_space "http://example.com/"
                  "out" 10 Scenario.world0 in
  let self := Scenario.extractor Scenario.site_no_space "http://example.com/" in
  OS.read_text (disk (snd run)) "out/.git/HEAD"
  = Ok ("ref:refs/heads/main" +:+ Scenario.nl)
  /\ fst (extract_hash_from_head self (snd run)) = Raise IndexError
  /\ fst run = Raise IndexError.
Proof.
  cbv zeta. split; [vm_compute; reflexivity|].
  split; vm_compute; reflexivity.
Qed.

(** C5: the code does not resolve every [ref: <p>].  When [<p>] itself
    contains the marker, as in [ref: a/ref: b], [split('ref: ')[1]] is
    the text between the first two markers, [a/]: the resolver opens
    the directory [out/.git/a/] instead of the file [out/.git/a/ref: b]
    that holds the hash, and [IsADirectoryError] escapes. *)
Theorem marker_inside_path_misresolved :
  let self := Scenario.extractor (Scenario.serve []) "http://example.com/" in
  let w := World Scenario.disk_marker_twice [] in
  Py.strip ("ref: a/ref: b" +:+ Scenario.nl) = "ref: " +:+ "a/ref: b"
  /\ OS.read_text (disk w) (PosixPath.join3 "out" ".git" "a/ref: b")
     = Ok (Scenario.hash_a +:+ Scenario.nl)
  /\ is_content_hash Scenario.hash_a = true
  /\ extract_hash_from_head self w = (Raise IsADirectoryError, w).
Proof.
  cbv zeta. split; [vm_compute; reflexivity|].
  split; [vm_compute; reflexivity|].
  split; vm_compute; reflexivity.
Qed.

(** ** [download_objects] *)




(** ** The pack manifest *)



(** The manifest of the specification: two pack fetches, two index
    fetches, in manifest order. *)
Example two_packs_two_indexes :
  let run := main Url.urljoin Scenario.site_two_packs "http://example.com/"
                  "out" 10 Scenario.world0 in
  fst run = Ok tt
  /\ skipn 10 (sent (snd run))
     = [GET "http://example.com/.git/objects/pack/repo.pack";
        GET "http://example.com/.git/objects/pack/repo.idx";
        GET "http://example.com/.git/objects/pack/other.pack";
        GET "http://example.com/.git/objects/pack/other.idx"].
Proof. cbv zeta. split; vm_compute; reflexivity. Qed.

(** C7: the index name is not the pack name with its suffix replaced.
    [str.replace] rewrites every [.pack]: for the manifest entry
    [a.pack.pack] the code requests [a.idx.idx], where the suffix rule
    gives [a.pack.idx]. *)
Theorem idx_name_replaces_every_pack :
  let run := main Url.urljoin Scenario.site_pack_pack "http://example.com/"
                  "out" 10 Scenario.world0 in
  Py.pack_pattern_findall ("P " +:+ Scenario.hash_a +:+ " a.pack.pack" +:+ Scenario.nl)
  = [(Scenario.hash_a, "a.pack.pack")]
  /\ fst run = Ok tt
  /\ skipn 10 (sent (snd run))
     = [GET "http://example.com/.git/objects/pack/a.pack.pack";
        GET "http://example.com/.git/objects/pack/a.idx.idx"].
Proof.
  cbv zeta. split; [vm_compute; reflexivity|].
  split; vm_compute; reflexivity.
Qed.

(** ** Confinement of writes *)

(** C9: the secondary path of a symbolic HEAD reaches [download_file]
    as it is, and [download_file] writes at the plain join of the
    output directory and the path.  With [ref: ../../evil] the run
    writes the file [/home/user/evil], with [ref: /tmp/evil] the file
    [/tmp/evil]; neither lies under the output directory
    [/home/user/out], and in both runs the hash is then read from
    there, as the object request that follows shows. *)
Theorem writes_escape_output_root :
  let climb := main Url.urljoin Scenario.site_dotdot "http://example.com/"
                    "out" 10 Scenario.world0 in
  let absolute := main Url.urljoin Scenario.site_absolute "http://example.com/"
                       "out" 10 Scenario.world0 in
  (fst climb = Ok tt
   /\ OS.node_at Scenario.disk0 ["home"; "user"; "evil"] = None
   /\ OS.node_at (disk (snd climb)) ["home"; "user"; "evil"]
      = Some (OS.File Scenario.digits40)
   /\ ~ inside (disk (snd climb)) "out" ["home"; "user"; "evil"]
   /\ last (sent (snd climb))
      = Some (GET ("http://example.com/.git/objects/01/" +:+ Py.drop 2 Scenario.digits40)))
  /\ (fst absolute = Ok tt
      /\ OS.node_at Scenario.disk0 ["tmp"; "evil"] = None
      /\ OS.node_at (disk (snd absolute)) ["tmp"; "evil"]
         = Some (OS.File Scenario.digits40)
      /\ ~ inside (disk (snd absolute)) "out" ["tmp"; "evil"]
      /\ last (sent (snd absolute))
         = Some (GET ("http://example.com/.git/objects/01/" +:+ Py.drop 2 Scenario.digits40))).
Proof.
  cbv zeta. split.
  - split; [vm_compute; reflexivity|].
    split; [vm_compute; reflexivity|].
    split; [vm_compute; reflexivity|].
    split; [|vm_compute; reflexivity].
    intros (r & Hr & k & Hk). vm_compute in Hr.
    injection Hr as <-. discriminate Hk.
  - split; [vm_compute; reflexivity|].
    split; [vm_compute; reflexivity|].
    split; [vm_compute; reflexivity|].
    split; [|vm_compute; reflexivity].
    intros (r & Hr & k & Hk). vm_compute in Hr.
    injection Hr as <-. discriminate Hk.
Qed.

(** ** What a run sends and what it leaves on the disk *)

Section Effects.

Implicit Types (d : OS.fs) (w : world).

Lemma keeps_refl d : keeps d d.
Proof.
  split; [reflexivity|]. intros l.
  destruct (OS.node_at d l) as [[data|]|]; eauto.
Qed.

Lemma keeps_trans d1 d2 d3 : keeps d1 d2 -> keeps d2 d3 -> keeps d1 d3.
Proof.
  intros [Hc1 H1] [Hc2 H2]. split; [congruence|]. intros l.
  specialize (H1 l). specialize (H2 l).
  destruct (OS.node_at d1 l) as [[data|]|]; [| |exact I].
  - destruct H1 as [data' H1]. by rewrite H1 in H2.
  - by rewrite H1 in H2.
Qed.

Lemma grows_keeps d d' : grows d d' -> keeps d d'.
Proof.
  intros [Hc Hn]. split; [exact Hc|]. intros l.
  destruct (Hn l) as [Heq|[Hnone _]].
  - rewrite <- Heq. destruct (OS.node_at d' l) as [[data|]|]; eauto.
  - by rewrite Hnone.
Qed.

Lemma write_bytes_keeps d p data d' :
  OS.write_bytes d p data = Ok d' -> keeps d d'.
Proof.
  unfold OS.write_bytes. destruct (OS.names_directory p).
  { destruct (OS.walk _ _ _); discriminate. }
  destruct (OS.resolve d p) as [l|]; [|discriminate].
  assert (Hput : OS.node_at d l <> Some OS.Dir -> keeps d (OS.put d l (OS.File data))).
  { intros Hnd. split; [reflexivity|]. intros k.
    destruct (decide (k = l)) as [->|Hne].
    - destruct (OS.node_at d l) as [[old|]|] eqn:Hat; [|contradiction|exact I].
      rewrite node_at_put_eq; [eauto|]. intros ->. discriminate.
    - rewrite (node_at_put_ne d l _ k Hne).
      destruct (OS.node_at d k) as [[old|]|]; eauto. }
  destruct (OS.node_at d l) as [[old|]|] eqn:Hat.
  - intros [= <-]. by apply Hput.
  - discriminate.
  - unfold OS.create.
    destruct (OS.node_at d (removelast l)) as [[?|]|]; try discriminate.
    intros [= <-]. by apply Hput.
Qed.

Lemma fetch_only_ret {A} (a : A) : fetch_only (ret a).
Proof.
  intros w. exists []. split; [by rewrite app_nil_r | apply keeps_refl].
Qed.

Lemma fetch_only_raise {A} (e : exn) : fetch_only (@raise A e).
Proof.
  intros w. exists []. split; [by rewrite app_nil_r | apply keeps_refl].
Qed.

Lemma fetch_only_lift {A} (r : result A) : fetch_only (lift r).
Proof.
  intros w. exists []. split; [by rewrite app_nil_r | apply keeps_refl].
Qed.

Lemma fetch_only_os_path_exists p : fetch_only (os_path_exists p).
Proof.
  intros w. exists []. split; [by rewrite app_nil_r | apply keeps_refl].
Qed.

Lemma fetch_only_read_file p : fetch_only (read_file p).
Proof.
  intros w. exists []. split; [by rewrite app_nil_r | apply keeps_refl].
Qed.

Lemma fetch_only_index {A} (l : list A) i : fetch_only (index l i).
Proof.
  unfold index. destruct (nth_error l i);
    [apply fetch_only_ret | apply fetch_only_raise].
Qed.

Lemma fetch_only_os_makedirs p exist_ok : fetch_only (os_makedirs p exist_ok).
Proof.
  intros w. exists []. unfold os_makedirs.
  pose proof (makedirs_grows (disk w) p exist_ok) as Hg.
  destruct (OS.makedirs (disk w) p exist_ok) as [r d]. cbn [snd sent disk] in *.
  split; [by rewrite app_nil_r | by apply grows_keeps].
Qed.

Lemma fetch_only_write_file p data : fetch_only (write_file p data).
Proof.
  intros w. exists []. unfold write_file.
  destruct (OS.write_bytes (disk w) p data) as [d|e] eqn:Hw; cbn [snd sent disk].
  - split; [by rewrite app_nil_r | by eapply write_bytes_keeps].
  - split; [by rewrite app_nil_r | apply keeps_refl].
Qed.

Lemma fetch_only_send_get t u : fetch_only (send t (GET u)).
Proof.
  intros w. exists [u]. split; [reflexivity | apply keeps_refl].
Qed.

Lemma fetch_only_bind {A B} (m : M A) (k : A -> M B) :
  fetch_only m -> (forall a, fetch_only (k a)) -> fetch_only (bind m k).
Proof.
  intros Hm Hk w. unfold bind.
  destruct (Hm w) as (us1 & Hs1 & Hk1).
  destruct (m w) as [[a|e] w1]; cbn [snd] in *; [|by exists us1].
  destruct (Hk a w1) as (us2 & Hs2 & Hk2).
  exists (us1 ++ us2). split.
  - by rewrite Hs2, Hs1, map_app, <- app_assoc.
  - by eapply keeps_trans.
Qed.

Lemma fetch_only_try_except {A} (m : M A) (h : exn -> M A) :
  fetch_only m -> (forall e, fetch_only (h e)) -> fetch_only (try_except m h).
Proof.
  intros Hm Hh w. unfold try_except.
  destruct (Hm w) as (us1 & Hs1 & Hk1).
  destruct (m w) as [[a|e] w1]; cbn [snd] in *; [by exists us1|].
  destruct (Hh e w1) as (us2 & Hs2 & Hk2).
  exists (us1 ++ us2). split.
  - by rewrite Hs2, Hs1, map_app, <- app_assoc.
  - by eapply keeps_trans.
Qed.

Lemma fetch_only_for_each {A} (l : list A) (body : A -> M unit) :
  (forall x, fetch_only (body x)) -> fetch_only (for_each l body).
Proof.
  intros Hbody. induction l as [|x l IH]; cbn [for_each].
  - apply fetch_only_ret.
  - apply fetch_only_bind; [apply Hbody | intros _; exact IH].
Qed.

Lemma fetch_only_if {A} (b : bool) (m1 m2 : M A) :
  fetch_only m1 -> fetch_only m2 -> fetch_only (if b then m1 else m2).
Proof. by destruct b. Qed.

Variable self : GitExtractor.

Lemma fetch_only_download_file path : fetch_only (download_file self path).
Proof.
  unfold download_file.
  apply fetch_only_bind; [apply fetch_only_lift | intros file_url].
  apply fetch_only_try_except; [|intros _; apply fetch_only_ret].
  apply fetch_only_bind; [apply fetch_only_send_get | intros response].
  apply fetch_only_if; [|apply fetch_only_ret].
  apply fetch_only_bind; [apply fetch_only_os_makedirs | intros _].
  apply fetch_only_bind; [apply fetch_only_write_file | intros _].
  apply fetch_only_ret.
Qed.

Lemma fetch_only_download_git_files : fetch_only (download_git_files self).
Proof.
  unfold download_git_files. apply fetch_only_for_each. intros git_file.
  apply fetch_only_bind; [apply fetch_only_download_file | intros _].
  apply fetch_only_ret.
Qed.

Lemma fetch_only_extract_hash_from_head : fetch_only (extract_hash_from_head self).
Proof.
  unfold extract_hash_from_head.
  apply fetch_only_bind; [apply fetch_only_os_path_exists | intros present].
  apply fetch_only_if; [apply fetch_only_ret|].
  apply fetch_only_bind; [apply fetch_only_read_file | intros raw].
  apply fetch_only_if.
  - apply fetch_only_bind; [apply fetch_only_index | intros ref_path].
    apply fetch_only_bind; [apply fetch_only_os_path_exists | intros present1].
    apply fetch_only_if.
    + apply fetch_only_bind; [apply fetch_only_read_file | intros raw1].
      apply fetch_only_ret.
    + apply fetch_only_bind; [apply fetch_only_download_file | intros _].
      apply fetch_only_bind; [apply fetch_only_os_path_exists | intros present2].
      apply fetch_only_if; [|apply fetch_only_ret].
      apply fetch_only_bind; [apply fetch_only_read_file | intros raw2].
      apply fetch_only_ret.
  - apply fetch_only_if; apply fetch_only_ret.
Qed.

Lemma fetch_only_download_objects hashes : fetch_only (download_objects self hashes).
Proof.
  unfold download_objects. apply fetch_only_if; [apply fetch_only_raise|].
  apply fetch_only_for_each. intros obj_path. unfold run_future.
  apply fetch_only_try_except; [|intros _; apply fetch_only_ret].
  apply fetch_only_bind; [apply fetch_only_download_file | intros _].
  apply fetch_only_ret.
Qed.

Lemma fetch_only_download_pack_files : fetch_only (download_pack_files self).
Proof.
  unfold download_pack_files.
  apply fetch_only_bind; [apply fetch_only_os_path_exists | intros present].
  apply fetch_only_if; [apply fetch_only_ret|].
  apply fetch_only_bind; [apply fetch_only_read_file | intros content].
  apply fetch_only_for_each. intros [hash pack_file].
  apply fetch_only_bind; [apply fetch_only_download_file | intros _].
  apply fetch_only_bind; [apply fetch_only_download_file | intros _].
  apply fetch_only_ret.
Qed.

(** Everything after the probe. *)
Lemma fetch_only_download_phases :
  fetch_only (download_git_files self ;;;
              head_hash <- extract_hash_from_head self ;;
              (if truthy head_hash then download_objects self [head_hash]
               else ret tt) ;;;
              download_pack_files self ;;;
              ret true).
Proof.
  apply fetch_only_bind; [apply fetch_only_download_git_files | intros _].
  apply fetch_only_bind; [apply fetch_only_extract_hash_from_head | intros head_hash].
  apply fetch_only_bind.
  { apply fetch_only_if; [apply fetch_only_download_objects | apply fetch_only_ret]. }
  intros _.
  apply fetch_only_bind; [apply fetch_only_download_pack_files | intros _].
  apply fetch_only_ret.
Qed.

End Effects.

(** The requests and the disk of a run of [execute], however it ends. *)
Lemma execute_effects (self : GitExtractor) (w : world) :
  exists probes fetches,
    sent (snd (execute self w)) = sent w ++ map HEAD probes ++ map GET fetches
    /\ length probes <= 3
    /\ keeps (disk w) (disk (snd (execute self w))).
Proof.
  destruct (check_git_exists_loop_effects self (firstn 3 (git_files self)) w)
    as (probes & Heff & Hlen).
  fold (check_git_exists self w) in Heff.
  rewrite length_firstn in Hlen.
  assert (Hrun : execute self w
                 = match check_git_exists self w with
                   | (Ok found, w1) =>
                       (if negb found then ret false
                        else
                          download_git_files self ;;;
                          head_hash <- extract_hash_from_head self ;;
                          (if truthy head_hash then download_objects self [head_hash]
                           else ret tt) ;;;
                          download_pack_files self ;;;
                          ret true) w1
                   | (Raise e, w1) => (Raise e, w1)
                   end) by reflexivity.
  rewrite Hrun. clear Hrun.
  destruct (check_git_exists self w) as [[found|e] w1]; cbn [snd] in Heff; subst w1.
  - destruct found; cbn [negb].
    + destruct (fetch_only_download_phases self (World (disk w) (sent w ++ map HEAD probes)))
        as (fetches & Hs & Hk).
      exists probes, fetches. cbn [sent] in Hs. rewrite Hs, <- app_assoc.
      split; [reflexivity|]. split; [lia | exact Hk].
    + exists probes, []. cbn. rewrite app_nil_r.
      split; [reflexivity|]. split; [lia | apply keeps_refl].
  - exists probes, []. cbn. rewrite app_nil_r.
    split; [reflexivity|]. split; [lia | apply keeps_refl].
Qed.

(** A run of [execute] first probes with HEAD requests, three at most,
    and from then on sends GET requests only. *)
Theorem execute_probes_then_fetches (self : GitExtractor) (w : world) :
  exists probes fetches,
    sent (snd (execute self w)) = sent w ++ map HEAD probes ++ map GET fetches
    /\ length probes <= 3.
Proof.
  destruct (execute_effects self w) as (probes & fetches & Hs & Hlen & _).
  by exists probes, fetches.
Qed.

(** Whatever the server answers and however the run ends, [execute]
    removes no entry of the disk and changes the kind of none. *)
Theorem execute_keeps_entries (self : GitExtractor) (w : world) :
  keeps (disk w) (disk (snd (execute self w))).
Proof.
  by destruct (execute_effects self w) as (probes & fetches & _ & _ & Hk).
Qed.

(** ** More on the constructor *)

Lemma makes_directories_only_ret {A} (a : A) : makes_directories_only (ret a).
Proof. intros w. split; [reflexivity | apply grows_refl]. Qed.

Lemma makes_directories_only_exists p : makes_directories_only (os_path_exists p).
Proof. intros w. split; [reflexivity | apply grows_refl]. Qed.

Lemma makes_directories_only_makedirs p exist_ok :
  makes_directories_only (os_makedirs p exist_ok).
Proof.
  intros w. unfold os_makedirs.
  pose proof (makedirs_grows (disk w) p exist_ok) as Hg.
  by destruct (OS.makedirs (disk w) p exist_ok) as [r d].
Qed.

Lemma makes_directories_only_bind {A B} (m : M A) (k : A -> M B) :
  makes_directories_only m -> (forall a, makes_directories_only (k a)) ->
  makes_directories_only (bind m k).
Proof.
  intros Hm Hk w. unfold bind. destruct (Hm w) as [Hs1 Hg1].
  destruct (m w) as [[a|e] w1]; cbn [snd] in *; [|by split].
  destruct (Hk a w1) as [Hs2 Hg2]. split; [congruence | by eapply grows_trans].
Qed.

Lemma init_makes_directories_only
  (urljoin_ : string -> string -> result string) (session_ : transport)
  (url_ out : string) (thr : Z) :
  makes_directories_only (__init__ urljoin_ session_ url_ out thr).
Proof.
  unfold __init__.
  apply makes_directories_only_bind; [apply makes_directories_only_exists|].
  intros present1. apply makes_directories_only_bind.
  { destruct present1; cbn [negb];
      [apply makes_directories_only_ret | apply makes_directories_only_makedirs]. }
  intros _. apply makes_directories_only_bind; [apply makes_directories_only_exists|].
  intros present2. apply makes_directories_only_bind.
  { destruct present2; cbn [negb];
      [apply makes_directories_only_ret | apply makes_directories_only_makedirs]. }
  intros _. apply makes_directories_only_ret.
Qed.

(** Whatever its outcome, the constructor sends no request and adds
    nothing but directories to the disk. *)
Theorem constructor_only_makes_directories
  (urljoin_ : string -> string -> result string) (session_ : transport)
  (url_ out : string) (thr : Z) (w : world) :
  sent (snd (__init__ urljoin_ session_ url_ out thr w)) = sent w
  /\ grows (disk w) (disk (snd (__init__ urljoin_ session_ url_ out thr w))).
Proof.
  exact (init_makes_directories_only urljoin_ session_ url_ out thr w).
Qed.

(** What the constructor leaves when it returns: both paths exist. *)
Lemma init_post urljoin_ session_ url_ out thr w self w1 :
  __init__ urljoin_ session_ url_ out thr w = (Ok self, w1) ->
  OS.exists_ (disk w1) out = true
  /\ OS.exists_ (disk w1) (PosixPath.join out ".git") = true.
Proof.
  intros Hinit.
  assert (Hne : out <> "").
  { intros ->. pose proof (init_empty_output_dir urljoin_ session_ url_ thr w) as H.
    rewrite Hinit in H. discriminate. }
  destruct (init_inv _ _ _ _ _ _ _ _ Hinit) as (d1 & _ & _ & Hstep2).
  destruct (join_git out Hne) as (base & Hgit & Hbase).
  assert (Hexists : OS.exists_ (disk w1) (PosixPath.join out ".git") = true).
  { destruct Hstep2 as [[He ->]|[_ Hmk]]; [exact He|].
    rewrite Hgit in Hmk. apply makedirs_git_isdir in Hmk. rewrite <- Hgit in Hmk.
    unfold OS.isdir in Hmk. unfold OS.exists_.
    by destruct (OS.stat (disk w1) (PosixPath.join out ".git")) as [[?|]|]. }
  split; [|exact Hexists].
  rewrite Hgit in Hexists.
  pose proof (exists_git_isdir (disk w1) out base Hne Hbase Hexists) as Hdir.
  unfold OS.isdir in Hdir. unfold OS.exists_.
  by destruct (OS.stat (disk w1) out) as [[?|]|].
Qed.

(** The constructor can be run again: on the disk that a first
    construction left, a second one with the same arguments returns the
    same object, makes nothing and does not fail on the directories
    that are there. *)
Theorem constructor_is_idempotent
  (urljoin_ : string -> string -> result string) (session_ : transport)
  (url_ out : string) (thr : Z) (w : world) (self : GitExtractor) (w1 : world) :
  __init__ urljoin_ session_ url_ out thr w = (Ok self, w1) ->
  __init__ urljoin_ session_ url_ out thr w1 = (Ok self, w1).
Proof.
  intros Hinit. destruct (init_post _ _ _ _ _ _ _ _ Hinit) as [Hout Hgit].
  assert (Hself : self = {| urljoin := urljoin_; session := session_;
                            url := Py.rstrip_char "/" url_; output_dir := out;
                            threads := thr; git_files := catalog;
                            git_dir := PosixPath.join out ".git" |}).
  { pose proof Hinit as H.
    unfold __init__, bind, os_path_exists, os_makedirs, ret in H.
    cbn [disk sent] in H.
    destruct (OS.exists_ (disk w) out); cbn [negb] in H.
    - destruct (OS.exists_ (disk w) (PosixPath.join out ".git")); cbn [negb] in H.
      + by injection H as <- _.
      + destruct (OS.makedirs (disk w) (PosixPath.join out ".git") false)
          as [[[]|] d2]; [|discriminate].
        by injection H as <- _.
    - destruct (OS.makedirs (disk w) out false) as [[[]|] d1]; [|discriminate].
      cbn [disk sent] in H.
      destruct (OS.exists_ d1 (PosixPath.join out ".git")); cbn [negb] in H.
      + by injection H as <- _.
      + cbn [disk sent] in H.
        destruct (OS.makedirs d1 (PosixPath.join out ".git") false)
          as [[[]|] d2]; [|discriminate].
        by injection H as <- _. }
  unfold __init__, bind, os_path_exists, os_makedirs, ret.
  rewrite Hout. cbn [negb]. rewrite Hgit. cbn [negb]. by rewrite Hself.
Qed.

Lemma constructor_is_idempotent_witness :
  let self := Scenario.extractor (Scenario.serve []) "http://example.com/" in
  let w1 := World Scenario.disk_out [] in
  __init__ Url.urljoin (Scenario.serve []) "http://example.com/" "out" 10
           Scenario.world0 = (Ok self, w1)
  /\ __init__ Url.urljoin (Scenario.serve []) "http://example.com/" "out" 10 w1
     = (Ok self, w1).
Proof.
  cbv zeta.
  pose proof (init_on_world0 Url.urljoin (Scenario.serve []) "http://example.com/" 10)
    as Hinit.
  split; [exact Hinit|].
  exact (constructor_is_idempotent _ _ _ _ _ _ _ _ Hinit).
Defined.

(** An empty [output_dir] makes the constructor fail at once: nothing
    is made and nothing is sent. *)
Theorem constructor_rejects_empty_output_dir
  (urljoin_ : string -> string -> result string) (session_ : transport)
  (url_ : string) (thr : Z) (w : world) :
  fst (__init__ urljoin_ session_ url_ "" thr w) = Raise FileNotFoundError
  /\ disk (snd (__init__ urljoin_ session_ url_ "" thr w)) = disk w
  /\ sent (snd (__init__ urljoin_ session_ url_ "" thr w)) = sent w.
Proof. split; [reflexivity|]. split; reflexivity. Qed.

(** ** More on the probe and on the download loops *)

Lemma fetch_urls_ok (self : GitExtractor) (p : string) (paths : list string) (u : string) :
  urljoin self (url self) p = Ok u ->
  fetch_urls self (p :: paths) = u :: fetch_urls self paths.
Proof. intros Hu. unfold fetch_urls. simpl. by rewrite Hu. Qed.

Lemma check_git_exists_loop_true (self : GitExtractor) (files : list string)
  (w w' : world) :
  check_git_exists_loop self files w = (Ok true, w') ->
  exists pre git_file post u response,
    files = pre ++ git_file :: post
    /\ length (fetch_urls self pre) = length pre
    /\ urljoin self (url self) git_file = Ok u
    /\ session self (sent w ++ map HEAD (fetch_urls self pre)) (HEAD u) = Ok response
    /\ status_code response = 200%Z
    /\ w' = World (disk w) (sent w ++ map HEAD (fetch_urls self pre) ++ [HEAD u]).
Proof.
  revert w. induction files as [|git_file files IH]; intros w; [discriminate|].
  cbn [check_git_exists_loop]. unfold bind at 1, lift.
  destruct (urljoin self (url self) git_file) as [u|e] eqn:Hu; [|discriminate].
  unfold bind at 1, try_except, bind at 1, send, ret.
  assert (Hrest :
    check_git_exists_loop self files (World (disk w) (sent w ++ [HEAD u])) = (Ok true, w') ->
    exists pre git_file0 post u0 response,
      git_file :: files = pre ++ git_file0 :: post
      /\ length (fetch_urls self pre) = length pre
      /\ urljoin self (url self) git_file0 = Ok u0
      /\ session self (sent w ++ map HEAD (fetch_urls self pre)) (HEAD u0) = Ok response
      /\ status_code response = 200%Z
      /\ w' = World (disk w) (sent w ++ map HEAD (fetch_urls self pre) ++ [HEAD u0])).
  { intros Hloop.
    destruct (IH _ Hloop) as (pre & g & post & u0 & r & -> & Hlen & Hu0 & Hs & Hst & ->).
    cbn [disk sent] in *.
    exists (git_file :: pre), g, post, u0, r.
    rewrite (fetch_urls_ok self git_file pre u Hu). cbn [map length].
    rewrite <- app_assoc in Hs. rewrite <- app_assoc.
    split; [reflexivity|]. split; [by rewrite Hlen|].
    split; [exact Hu0|]. split; [exact Hs|]. split; [exact Hst | reflexivity]. }
  destruct (session self (sent w) (HEAD u)) as [response|e] eqn:Hs.
  - destruct (status_code response =? 200)%Z eqn:Hst; [|exact Hrest].
    apply Z.eqb_eq in Hst. intros [= <-].
    exists [], git_file, files, u, response. cbn. rewrite app_nil_r.
    split; [reflexivity|]. split; [reflexivity|].
    split; [exact Hu|]. split; [exact Hs|]. split; [exact Hst | reflexivity].
  - exact Hrest.
Qed.

(** The probe reports a repository only when a HEAD request was
    answered with status 200, and that request is the last one it
    sends: the paths before it were probed without success, the paths
    after it are not probed at all.  The disk stays as it is. *)
Theorem probe_found_means_200 (self : GitExtractor) (w w' : world) :
  check_git_exists self w = (Ok true, w') ->
  exists pre git_file post u response,
    firstn 3 (git_files self) = pre ++ git_file :: post
    /\ length (fetch_urls self pre) = length pre
    /\ urljoin self (url self) git_file = Ok u
    /\ session self (sent w ++ map HEAD (fetch_urls self pre)) (HEAD u) = Ok response
    /\ status_code response = 200%Z
    /\ w' = World (disk w) (sent w ++ map HEAD (fetch_urls self pre) ++ [HEAD u]).
Proof. apply check_git_exists_loop_true. Qed.

Lemma probe_found_means_200_witness :
  let self := Scenario.extractor Scenario.site_branch "http://example.com/" in
  let w' := World Scenario.disk_out [HEAD "http://example.com/.git/HEAD"] in
  check_git_exists self (World Scenario.disk_out []) = (Ok true, w')
  /\ exists pre git_file post u response,
       firstn 3 (git_files self) = pre ++ git_file :: post
       /\ urljoin self (url self) git_file = Ok u
       /\ session self (map HEAD (fetch_urls self pre)) (HEAD u) = Ok response
       /\ status_code response = 200%Z.
Proof.
  cbv zeta.
  assert (H : check_git_exists
                (Scenario.extractor Scenario.site_branch "http://example.com/")
                (World Scenario.disk_out [])
              = (Ok true, World Scenario.disk_out [HEAD "http://example.com/.git/HEAD"])).
  { vm_compute. reflexivity. }
  split; [exact H|].
  destruct (probe_found_means_200 _ _ _ H)
    as (pre & g & post & u & r & H1 & _ & H3 & H4 & H5 & _).
  exists pre, g, post, u, r. auto.
Defined.

(** The bootstrap files are fetched best-effort: when the URLs can be
    built, [download_git_files] returns normally whatever the server
    answers, having sent one GET for each path of the catalog, in the
    order of the catalog. *)
Theorem download_git_files_fetches_catalog (self : GitExtractor) (w : world) :
  (forall git_file, In git_file (git_files self) ->
     exists u, urljoin self (url self) git_file = Ok u) ->
  exists w',
    download_git_files self w = (Ok tt, w')
    /\ sent w' = sent w ++ map GET (fetch_urls self (git_files self))
    /\ length (fetch_urls self (git_files self)) = length (git_files self).
Proof.
  unfold download_git_files. generalize (git_files self) as files.
  intros files. revert w. induction files as [|git_file files IH]; intros w Hurl.
  - exists w. split; [reflexivity|]. cbn. by rewrite app_nil_r.
  - destruct (Hurl git_file (or_introl eq_refl)) as [u Hu].
    destruct (download_file_returns self git_file w u Hu) as [b Hb].
    pose proof (download_file_sent self git_file w) as Hs.
    cbn [for_each]. unfold bind at 1. unfold bind at 1.
    destruct (download_file self git_file w) as [r w1]. cbn [fst snd] in Hb, Hs.
    subst r. unfold ret at 1.
    destruct (IH w1) as (w' & Hloop & Hs' & Hlen).
    { intros f Hf. apply Hurl. by right. }
    exists w'. split; [exact Hloop|]. split.
    + rewrite Hs', Hs, (fetch_urls_cons self git_file files), map_app.
      by rewrite <- app_assoc.
    + rewrite (fetch_urls_ok self git_file files u Hu). cbn [length]. by rewrite Hlen.
Qed.

Lemma download_git_files_fetches_catalog_witness :
  let self := Scenario.extractor (Scenario.serve []) "http://example.com/" in
  exists w',
    download_git_files self (World Scenario.disk_out []) = (Ok tt, w')
    /\ length (sent w') = 8.
Proof.
  cbv zeta.
  destruct (download_git_files_fetches_catalog
              (Scenario.extractor (Scenario.serve []) "http://example.com/")
              (World Scenario.disk_out []))
    as (w' & H1 & H2 & H3).
  - intros git_file Hin. cbn in Hin.
    destruct Hin as [<-|[<-|[<-|[<-|[<-|[<-|[<-|[<-|[]]]]]]]]]; eexists; reflexivity.
  - exists w'. split; [exact H1|].
    rewrite H2. cbn [sent app]. rewrite length_map, H3. reflexivity.
Defined.

(** [download_objects] absorbs every failure of its fetches: with a
    pool of at least one worker it returns normally for every list of
    hashes and every server. *)
Theorem download_objects_never_raises (self : GitExtractor)
  (hashes : list (option string)) (w : world) :
  (0 < threads self)%Z ->
  exists w', download_objects self hashes w = (Ok tt, w').
Proof.
  intros Hthreads. unfold download_objects.
  destruct (threads self <=? 0)%Z eqn:Hle; [apply Z.leb_le in Hle; lia|].
  destruct (for_each_run_future self (submitted hashes) w) as (w' & Hloop & _).
  by exists w'.
Qed.

Lemma download_objects_never_raises_witness :
  (0 < threads (Scenario.extractor (Scenario.serve []) "http://example.com/"))%Z
  /\ exists w',
       download_objects (Scenario.extractor (Scenario.serve []) "http://example.com/")
                        [Some Scenario.hash_a; None; Some "abc"]
                        (World Scenario.disk_out [])
       = (Ok tt, w').
Proof.
  split; [reflexivity|].
  apply (download_objects_never_raises
           (Scenario.extractor (Scenario.serve []) "http://example.com/")).
  reflexivity.
Defined.

(** ** Object paths *)

Section ObjectPaths.

Implicit Types (s t h : string).

Lemma length_take n s : String.length (Py.take n s) = Nat.min n (String.length s).
Proof.
  revert s. induction n as [|n IH]; intros [|c s]; try reflexivity.
  cbn [Py.take String.length Nat.min]. by rewrite IH.
Qed.

Lemma length_drop n s : String.length (Py.drop n s) = String.length s - n.
Proof.
  revert s. induction n as [|n IH]; intros [|c s]; try reflexivity.
  cbn [Py.drop String.length Nat.sub]. by rewrite IH.
Qed.

Lemma append_inv_length s1 t1 s2 t2 :
  String.length s1 = String.length s2 ->
  s1 +:+ t1 = s2 +:+ t2 -> s1 = s2 /\ t1 = t2.
Proof.
  revert s2. induction s1 as [|c s1 IH]; intros [|c2 s2]; try discriminate.
  - by intros _ H.
  - cbn [String.length]. intros [= Hlen].
    change (String c s1 +:+ t1) with (String c (s1 +:+ t1)).
    change (String c2 s2 +:+ t2) with (String c2 (s2 +:+ t2)).
    intros [= -> H]. destruct (IH _ Hlen H) as [-> ->]. by split.
Qed.

End ObjectPaths.

(** The path of an object splits back into its hash: for a string of
    40 characters the directory has the first two, the file name the
    other 38, and two such strings with the same path are equal, so
    that different hashes never share a file or a URL path. *)
Theorem object_path_round_trip (h : string) :
  String.length h = 40 ->
  object_path h = ".git/objects/" +:+ Py.take 2 h +:+ "/" +:+ Py.drop 2 h
  /\ String.length (Py.take 2 h) = 2
  /\ String.length (Py.drop 2 h) = 38
  /\ Py.take 2 h +:+ Py.drop 2 h = h
  /\ forall h', String.length h' = 40 -> object_path h' = object_path h -> h' = h.
Proof.
  intros Hlen. split; [reflexivity|].
  assert (Htake : forall s, String.length s = 40 -> String.length (Py.take 2 s) = 2).
  { intros s Hs. rewrite length_take, Hs. reflexivity. }
  split; [by apply Htake|].
  split; [rewrite length_drop, Hlen; reflexivity|].
  split; [apply take_drop|].
  intros h' Hlen' Heq. unfold object_path in Heq. cbv zeta in Heq.
  apply (append_inv_length ".git/objects/" _ ".git/objects/" _ eq_refl) in Heq
    as [_ Heq].
  apply append_inv_length in Heq as [Hdir Hfile];
    [|by rewrite (Htake h Hlen), (Htake h' Hlen')].
  apply (append_inv_length "/" _ "/" _ eq_refl) in Hfile as [_ Hfile].
  rewrite <- (take_drop 2 h'), <- (take_drop 2 h). by rewrite Hdir, Hfile.
Qed.

Lemma object_path_round_trip_witness :
  String.length Scenario.hash_a = 40
  /\ object_path Scenario.hash_a
     = ".git/objects/aa/" +:+ Py.drop 2 Scenario.hash_a.
Proof.
  split; [reflexivity|].
  destruct (object_path_round_trip Scenario.hash_a eq_refl) as [-> _].
  reflexivity.
Defined.

(** ** What the manifest pattern matches *)

Section PackPattern.

Implicit Types (s m f h : string).

Lemma dot_star_pack_shape s m :
  Py.dot_star_pack s = Some m ->
  (exists stem, m = stem +:+ ".pack")
  /\ Py.all_chars (fun c => negb (Ascii.eqb c Py.newline)) m = true.
Proof.
  revert m. induction s as [|c s IH]; intros m; [discriminate|].
  cbn [Py.dot_star_pack].
  destruct (if Ascii.eqb c Py.newline then None else Py.dot_star_pack s)
    as [m'|] eqn:Hinner.
  - intros [= <-]. destruct (Ascii.eqb c Py.newline) eqn:Hc; [discriminate|].
    destruct (IH m' Hinner) as [[stem ->] Hnl]. split.
    + by exists (String c stem).
    + cbn [Py.all_chars]. by rewrite Hc, Hnl.
  - destruct (String.prefix ".pack" (String c s)); [|discriminate].
    intros [= <-]. split; [by exists "" | reflexivity].
Qed.

Lemma dot_plus_pack_shape s m :
  Py.dot_plus_pack s = Some m ->
  (exists stem, stem <> "" /\ m = stem +:+ ".pack")
  /\ Py.all_chars (fun c => negb (Ascii.eqb c Py.newline)) m = true.
Proof.
  destruct s as [|c s]; [discriminate|]. cbn [Py.dot_plus_pack].
  destruct (Ascii.eqb c Py.newline) eqn:Hc; [discriminate|].
  destruct (Py.dot_star_pack s) as [m'|] eqn:Hstar; [|discriminate].
  intros [= <-]. destruct (dot_star_pack_shape s m' Hstar) as [[stem ->] Hnl].
  split.
  - exists (String c stem). by split.
  - cbn [Py.all_chars]. by rewrite Hc, Hnl.
Qed.

Lemma pack_pattern_match_shape s h f :
  Py.pack_pattern_match s = Some (h, f) ->
  is_content_hash h = true
  /\ (exists stem, stem <> "" /\ f = stem +:+ ".pack")
  /\ Py.all_chars (fun c => negb (Ascii.eqb c Py.newline)) f = true.
Proof.
  unfold Py.pack_pattern_match.
  destruct (String.prefix "P " s); [|discriminate]. cbv zeta.
  destruct ((String.length (Py.take 40 (Py.drop 2 s)) =? 40)%nat
            && Py.all_chars Py.is_hex (Py.take 40 (Py.drop 2 s))
            && String.prefix " " (Py.drop 42 s)) eqn:Hcond; [|discriminate].
  apply andb_prop in Hcond as [Hhash _].
  destruct (Py.dot_plus_pack (Py.drop 43 s)) as [m|] eqn:Hplus; [|discriminate].
  intros [= <- <-]. split; [exact Hhash|].
  exact (dot_plus_pack_shape _ _ Hplus).
Qed.

Lemma findall_go_shape skip s h f :
  In (h, f) (Py.findall_go skip s) ->
  is_content_hash h = true
  /\ (exists stem, stem <> "" /\ f = stem +:+ ".pack")
  /\ Py.all_chars (fun c => negb (Ascii.eqb c Py.newline)) f = true.
Proof.
  revert skip. induction s as [|c s IH]; intros skip; [intros []|].
  cbn [Py.findall_go]. destruct skip as [|k]; [|apply IH].
  destruct (Py.pack_pattern_match (String c s)) as [[h0 f0]|] eqn:Hm; [|apply IH].
  intros [[= <- <-]|Hin];
    [exact (pack_pattern_match_shape _ _ _ Hm) | exact (IH _ Hin)].
Qed.

End PackPattern.

(** Whatever the manifest holds, every entry that the pattern extracts
    from it has a hash of 40 hexadecimal digits and a file name that
    ends in [.pack], with something before the suffix and no line
    break inside. *)
Theorem pack_matches_are_pack_names (content h f : string) :
  In (h, f) (Py.pack_pattern_findall content) ->
  is_content_hash h = true
  /\ (exists stem, stem <> "" /\ f = stem +:+ ".pack")
  /\ Py.all_chars (fun c => negb (Ascii.eqb c Py.newline)) f = true.
Proof. apply findall_go_shape. Qed.

Lemma pack_matches_are_pack_names_witness :
  In (Scenario.hash_a, "repo.pack")
     (Py.pack_pattern_findall ("P " +:+ Scenario.hash_a +:+ " repo.pack" +:+ Scenario.nl))
  /\ is_content_hash Scenario.hash_a = true.
Proof.
  assert (H : In (Scenario.hash_a, "repo.pack")
                 (Py.pack_pattern_findall
                    ("P " +:+ Scenario.hash_a +:+ " repo.pack" +:+ Scenario.nl))).
  { vm_compute. left. reflexivity. }
  split; [exact H|].
  exact (proj1 (pack_matches_are_pack_names _ _ _ H)).
Defined.

(** ** More on the reference resolver *)

Lemma extract_hash_without_head_witness :
  let self := Scenario.extractor (Scenario.serve []) "http://example.com/" in
  let w := World Scenario.disk_out [] in
  OS.exists_ (disk w) (PosixPath.join (git_dir self) "HEAD") = false
  /\ extract_hash_from_head self w = (Ok None, w).
Proof.
  cbv zeta.
  assert (H : OS.exists_ Scenario.disk_out
                (PosixPath.join
                   (git_dir (Scenario.extractor (Scenario.serve []) "http://example.com/"))
                   "HEAD") = false).
  { vm_compute. reflexivity. }
  split; [exact H|].
  exact (extract_hash_without_head
           (Scenario.extractor (Scenario.serve []) "http://example.com/")
           (World Scenario.disk_out []) H).
Defined.

Lemma direct_head_is_validated_witness :
  let self := Scenario.extractor (Scenario.serve []) "http://example.com/" in
  let w := World Scenario.disk_direct [] in
  extract_hash_from_head self w = (Ok (Some Scenario.hash_a), w)
  /\ is_content_hash Scenario.hash_a = true.
Proof.
  cbv zeta.
  assert (Hrun : extract_hash_from_head
                   (Scenario.extractor (Scenario.serve []) "http://example.com/")
                   (World Scenario.disk_direct [])
                 = (Ok (Some Scenario.hash_a), World Scenario.disk_direct [])).
  { vm_compute. reflexivity. }
  split; [exact Hrun|].
  refine (proj1 (proj2 (direct_head_is_validated _ _ _
                          (Scenario.hash_a +:+ Scenario.nl) _ _ _ Hrun))).
  - vm_compute. reflexivity.
  - vm_compute. reflexivity.
Defined.




(** ** The requests of the resolver *)

Lemma fetch_urls_one (self : GitExtractor) (p : string) :
  length (fetch_urls self [p]) <= 1.
Proof.
  unfold fetch_urls. simpl. destruct (urljoin self (url self) p); simpl; lia.
Qed.

(** The resolver of HEAD sends one request at most, a GET, and when
    it sends none it leaves the disk as it was. *)
Theorem resolver_fetches_at_most_once (self : GitExtractor) (w : world) :
  exists fetches,
    sent (snd (extract_hash_from_head self w)) = sent w ++ map GET fetches
    /\ length fetches <= 1
    /\ (fetches = [] -> disk (snd (extract_hash_from_head self w)) = disk w).
Proof.
  set (P := fun r : result (option string) * world =>
              exists fetches,
                sent (snd r) = sent w ++ map GET fetches
                /\ length fetches <= 1
                /\ (fetches = [] -> disk (snd r) = disk w)).
  change (P (extract_hash_from_head self w)).
  assert (H0 : forall r, P (r, w)).
  { intros r. exists []. simpl. rewrite app_nil_r.
    split; [reflexivity|]. split; [lia | reflexivity]. }
  unfold extract_hash_from_head, bind at 1, os_path_exists.
  destruct (OS.exists_ (disk w) (PosixPath.join (git_dir self) "HEAD"));
    cbn [negb]; [|apply H0].
  unfold bind at 1, read_file.
  destruct (OS.read_text (disk w) (PosixPath.join (git_dir self) "HEAD"))
    as [raw|e]; [|apply H0].
  destruct (Py.startswith (Py.strip raw) "ref:");
    [|destruct (Py.ref_pattern_match (Py.strip raw)); apply H0].
  unfold bind at 1, index.
  destruct (nth_error (Py.split (Py.strip raw) "ref: ") 1) as [ref_path|];
    [|apply H0].
  unfold ret at 1. unfold bind at 1.
  destruct (OS.exists_ (disk w) (PosixPath.join3 (output_dir self) ".git" ref_path)).
  { unfold bind, read_file, ret. destruct (OS.read_text _ _); apply H0. }
  unfold bind at 1.
  pose proof (download_file_sent self (PosixPath.join ".git" ref_path) w) as Hs.
  destruct (urljoin self (url self) (PosixPath.join ".git" ref_path)) as [u|e] eqn:Hu.
  - assert (Hf : fetch_urls self [PosixPath.join ".git" ref_path] = [u]).
    { unfold fetch_urls. simpl. by rewrite Hu. }
    rewrite Hf in Hs.
    assert (H1 : forall r w1, sent w1 = sent w ++ map GET [u] -> P (r, w1)).
    { intros r w1 Hw1. exists [u]. split; [exact Hw1|].
      split; [simpl; lia | discriminate]. }
    destruct (download_file self (PosixPath.join ".git" ref_path) w) as [[b|e] w1];
      cbn [snd] in Hs.
    + unfold bind, os_path_exists, read_file, ret.
      destruct (OS.exists_ (disk w1) _); [destruct (OS.read_text (disk w1) _)|];
        by apply H1.
    + by apply H1.
  - rewrite (download_file_raises self _ w e Hu). apply H0.
Qed.
(** ** A branch file that the resolver downloads *)

Section JoinGit.

Local Open Scope string_scope.




End JoinGit.



(** ** A pool without workers *)

(** With a pool of no workers, [execute] raises [ValueError] as soon as
    HEAD resolves to a non-empty string: the catalog is downloaded by
    then, no object is asked for and the pack phase is never reached. *)
Theorem empty_pool_aborts_run (self : GitExtractor) (w w1 w2 w3 : world)
  (h : string) :
  (threads self <= 0)%Z ->
  check_git_exists self w = (Ok true, w1) ->
  download_git_files self w1 = (Ok tt, w2) ->
  extract_hash_from_head self w2 = (Ok (Some h), w3) ->
  h <> "" ->
  execute self w = (Raise ValueError, w3).
Proof.
  intros Hthreads Hprobe Hfiles Hhead Hne.
  unfold execute, bind. rewrite Hprobe. cbn [negb]. rewrite Hfiles, Hhead.
  assert (Ht : truthy (Some h) = true).
  { unfold truthy. destruct (String.eqb h "") eqn:He; [|reflexivity].
    apply String.eqb_eq in He. contradiction. }
  rewrite Ht. unfold download_objects.
  apply Z.leb_le in Hthreads. by rewrite Hthreads.
Qed.

Lemma empty_pool_aborts_run_witness :
  let self :=
    Scenario.extractor_with_threads Scenario.site_branch "http://example.com/" 0 in
  let run := execute self (World Scenario.disk_out []) in
  fst run = Raise ValueError
  /\ sent (snd run)
     = [HEAD "http://example.com/.git/HEAD";
        GET "http://example.com/.git/HEAD";
        GET "http://example.com/.git/config";
        GET "http://example.com/.git/description";
        GET "http://example.com/.git/info/exclude";
        GET "http://example.com/.git/objects/info/packs";
        GET "http://example.com/.git/refs/heads/master";
        GET "http://example.com/.git/refs/heads/main";
        GET "http://example.com/.git/index"].
Proof.
  cbv zeta.
  set (self := Scenario.extractor_with_threads Scenario.site_branch
                 "http://example.com/" 0).
  set (w := World Scenario.disk_out []).
  rewrite (empty_pool_aborts_run self w
             (snd (check_git_exists self w))
             (snd (download_git_files self (snd (check_git_exists self w))))
             (snd (extract_hash_from_head self
                     (snd (download_git_files self (snd (check_git_exists self w))))))
             Scenario.hash_a).
  - split; [reflexivity|]. vm_compute. reflexivity.
  - vm_compute. discriminate.
  - vm_compute. reflexivity.
  - vm_compute. reflexivity.
  - vm_compute. reflexivity.
  - discriminate.
Defined.

(** ** The whole program *)

(** However [main] ends, it has sent HEAD probes, three at most, and
    after them GET requests only, and every entry that the disk had is
    still there, a directory as a directory and a file as a file. *)
Theorem main_probes_then_fetches
  (urljoin_ : string -> string -> result string) (session_ : transport)
  (url_ out : string) (thr : Z) (w : world) :
  exists probes fetches,
    sent (snd (main urljoin_ session_ url_ out thr w))
    = sent w ++ map HEAD probes ++ map GET fetches
    /\ length probes <= 3
    /\ keeps (disk w) (disk (snd (main urljoin_ session_ url_ out thr w))).
Proof.
  set (P := fun r : result unit * world =>
              exists probes fetches,
                sent (snd r) = sent w ++ map HEAD probes ++ map GET fetches
                /\ length probes <= 3
                /\ keeps (disk w) (disk (snd r))).
  change (P (main urljoin_ session_ url_ out thr w)).
  destruct (init_makes_directories_only urljoin_ session_ url_ out thr w)
    as [Hs0 Hg0].
  apply grows_keeps in Hg0.
  unfold main, bind at 1.
  destruct (__init__ urljoin_ session_ url_ out thr w) as [[self|e] w1];
    cbn [snd] in Hs0, Hg0.
  - destruct (execute_effects self w1) as (probes & fetches & Hs & Hlen & Hk).
    assert (H1 : forall r, P (r, snd (execute self w1))).
    { intros r. exists probes, fetches. cbn [snd].
      split; [by rewrite Hs, Hs0|]. split; [exact Hlen|].
      by eapply keeps_trans. }
    unfold bind, ret.
    destruct (execute self w1) as [[b|e] w2]; apply H1.
  - exists [], []. cbn [snd map]. rewrite app_nil_r.
    split; [by rewrite Hs0|]. split; [cbn [length]; lia | exact Hg0].
Qed.
